(** * Sunset predictor: the scorer, the rating lookup and the sunset-hour aligner

    A shallow embedding of [sunset_predictor/sunset_score.py] and of the
    pure parts of [sunset_predictor/timeline.py] and [weather.py].

    Numbers.  The readings are Python floats.  Their values are taken as
    real numbers of the Standard Library: [abs] is [Rabs], [min] and [max]
    are [Rmin] and [Rmax], the arithmetic is exact.  Where a float operation
    fails the model fails too: [x ** 2] and [math.exp] raise
    [OverflowError] when their result is too large for a float.  Rounding and
    underflow are not modelled, so the statements below are chosen to hold of
    the floats as well: they bound the inputs where an operation could
    overflow and they do not rest on a strict inequality that rounding could
    turn into an equality.

    Effects.  The operations of the scorer that can fail are the true
    division [/], which raises [ZeroDivisionError] on a zero divisor, and
    [**] and [math.exp], which raise [OverflowError]; list indexing in the
    rating lookup and in the timeline raises [IndexError].  Computations
    live in a small monad [Py] that carries the outcome (a value or the
    exception raised) together with the log of the divisions that were
    evaluated, in evaluation order. *)

From Stdlib Require Import Reals Lra Lia ZArith List String.
Import ListNotations.

Local Open Scope R_scope.

(** ** The computation monad *)

Inductive exn : Type :=
| ZeroDivisionError
| IndexError
| OverflowError.

Inductive outcome (A : Type) : Type :=
| Ok (a : A)
| Raise (e : exn).

Arguments Ok {A} a.
Arguments Raise {A} e.

(** One evaluated division: dividend and divisor. *)
Definition division : Type := (R * R)%type.



Definition Py (A : Type) : Type := (list division * outcome A)%type.

Definition ret {A : Type} (a : A) : Py A := ([], Ok a).

Definition bind {A B : Type} (m : Py A) (f : A -> Py B) : Py B :=
  match m with
  | (l, Ok a) => let (l', r) := f a in (l ++ l', r)
  | (l, Raise e) => (l, Raise e)
  end.

Notation "x <- m ;; k" := (bind m (fun x => k))
  (at level 61, m at next level, right associativity).

Definition divisions {A : Type} (m : Py A) : list division := fst m.

Definition result {A : Type} (m : Py A) : outcome A := snd m.

(** Python's [x / y] on numbers. *)
Definition truediv (x y : R) : Py R :=
  ([(x, y)], if Req_dec_T y 0 then Raise ZeroDivisionError else Ok (x / y)).

(** Where floats overflow.  A real number rounds to a finite binary64 float
    when its absolute value is below [2^1024 - 2^970]; from there on the
    result of [**] is out of range.  [math.exp] is out of range above
    709.782712893384, the logarithm of the largest float. *)
Definition float_overflow : R := 2 ^ 1024 - 2 ^ 970.

Definition exp_overflow : R := 709.782712893384.

(** Python's [x ** n] on a float [x], for a literal exponent [n]. *)
Definition float_pow (x : R) (n : nat) : Py R :=
  ([], if Rle_dec float_overflow (Rabs (x ^ n)) then Raise OverflowError
       else Ok (x ^ n)).

(** [math.exp(x)]. *)
Definition math_exp (x : R) : Py R :=
  ([], if Rlt_dec exp_overflow x then Raise OverflowError else Ok (exp x)).

(** A bound on readings, [10^100], whose square is far below
    [float_overflow]. *)
Definition huge : R := 10 ^ 100.

(** ** sunset_score.py *)

(** [gaussian_score(distance, sigma)]:
    [math.exp(-(distance**2) / (2 * sigma**2))]; the dividend is evaluated
    before the divisor. *)
Definition gaussian_score (distance sigma : R) : Py R :=
  d2 <- float_pow distance 2 ;;
  s2 <- float_pow sigma 2 ;;
  q <- truediv (- d2) (2 * s2) ;;
  math_exp q.

(** Lines 20-23: the [aod_score] branch. *)
Definition aod_score (aod : R) : Py R :=
  if Rlt_dec aod 0.05 then ret 30
  else g <- gaussian_score (Rabs (aod - 0.3)) 0.4 ;; ret (g * 100).

(** Lines 25-29: the [size_score] branch. *)
Definition size_score (pm2_5 pm10 : R) : Py R :=
  if Rlt_dec 0 pm2_5 then
    size_ratio <- truediv pm10 pm2_5 ;;
    ret (if Rle_dec 2.0 size_ratio
         then if Rle_dec size_ratio 3.5 then 100 else 70
         else 70)
  else ret 50.

(** Lines 37-40: the [visibility_score] branch. *)
Definition visibility_score (visibility : R) : Py R :=
  if Rlt_dec visibility 5000 then
    q <- truediv visibility 5000 ;; ret (q * 100)
  else
    q <- truediv visibility 10000 ;; ret (Rmin 100 (q * 100)).

(** Lines 53-58. *)
Definition cloud_ceiling (cloud_cover : R) : R :=
  if Rlt_dec cloud_cover 10 then 30
  else if Rlt_dec cloud_cover 25 then 50
  else 100.

(** Lines 61-66: [pm2_5 > 75 or aod > 1.5], then [pm2_5 > 55 or aod > 1.0]. *)
Definition particle_ceiling (pm2_5 aod : R) : R :=
  if Rlt_dec 75 pm2_5 then 40
  else if Rlt_dec 1.5 aod then 40
  else if Rlt_dec 55 pm2_5 then 60
  else if Rlt_dec 1.0 aod then 60
  else 100.

Definition score_sunset
  (cloud_cover cloud_low cloud_mid cloud_high
   humidity visibility pm2_5 pm10 aod : R) : Py R :=
  (* cloud score *)
  g <- gaussian_score (Rabs (cloud_cover - 50)) 20 ;;
  let cloud_coverage_score := g * 100 in
  h <- truediv (cloud_mid + cloud_high) 2 ;;
  let cloud_quality := h - cloud_low in
  e <- truediv (- cloud_quality) 20 ;;
  x <- math_exp e ;;
  s <- truediv 1.0 (1.0 + x) ;;
  let cloud_type_score := s * 100 in
  cloud_score <- truediv (cloud_coverage_score + cloud_type_score) 2 ;;
  (* particle score *)
  g <- gaussian_score (Rabs (pm2_5 - 15)) 35 ;;
  let pm_score := g * 100 in
  aod_score <- aod_score aod ;;
  size_score <- size_score pm2_5 pm10 ;;
  let particle_score := pm_score * 0.5 + aod_score * 0.4 + size_score * 0.1 in
  (* humidity score *)
  g <- gaussian_score (Rabs (humidity - 60)) 20 ;;
  let humidity_score := g * 100 in
  (* visibility score *)
  visibility_score <- visibility_score visibility ;;
  (* weighted average *)
  let base_score :=
    cloud_score * 0.40 + particle_score * 0.30
    + visibility_score * 0.20 + humidity_score * 0.10 in
  (* critical component ceiling *)
  let cloud_ceiling := cloud_ceiling cloud_cover in
  let particle_ceiling := particle_ceiling pm2_5 aod in
  let ceiling := Rmin cloud_ceiling particle_ceiling in
  let final_score := Rmin base_score ceiling in
  ret (Rmax 0 (Rmin 100 final_score)).

(** The derived closed forms of what the code computes when nothing
    overflows, used to state the run lemmas below; each is proved equal to
    the outcome of the monadic code. *)

Definition gaussian_value (distance sigma : R) : R :=
  exp (- (distance ^ 2) / (2 * sigma ^ 2)).

Definition aod_score_value (aod : R) : R :=
  if Rlt_dec aod 0.05 then 30
  else gaussian_value (Rabs (aod - 0.3)) 0.4 * 100.

Definition size_score_value (pm2_5 pm10 : R) : R :=
  if Rlt_dec 0 pm2_5 then
    if Rle_dec 2.0 (pm10 / pm2_5)
    then if Rle_dec (pm10 / pm2_5) 3.5 then 100 else 70
    else 70
  else 50.

Definition visibility_score_value (visibility : R) : R :=
  if Rlt_dec visibility 5000 then visibility / 5000 * 100
  else Rmin 100 (visibility / 10000 * 100).

Definition cloud_score_value (cloud_cover cloud_low cloud_mid cloud_high : R) : R :=
  (gaussian_value (Rabs (cloud_cover - 50)) 20 * 100
   + 1.0 / (1.0 + exp (- ((cloud_mid + cloud_high) / 2 - cloud_low) / 20)) * 100) / 2.

Definition particle_score_value (pm2_5 pm10 aod : R) : R :=
  gaussian_value (Rabs (pm2_5 - 15)) 35 * 100 * 0.5
  + aod_score_value aod * 0.4 + size_score_value pm2_5 pm10 * 0.1.

Definition base_score_value
  (cloud_cover cloud_low cloud_mid cloud_high
   humidity visibility pm2_5 pm10 aod : R) : R :=
  cloud_score_value cloud_cover cloud_low cloud_mid cloud_high * 0.40
  + particle_score_value pm2_5 pm10 aod * 0.30
  + visibility_score_value visibility * 0.20
  + gaussian_value (Rabs (humidity - 60)) 20 * 100 * 0.10.

(** The input domains of the nine readings: percentages in 0..100, the
    other quantities non-negative. *)
Definition percent (x : R) : Prop := 0 <= x <= 100.

Definition valid_reading
  (cloud_cover cloud_low cloud_mid cloud_high
   humidity visibility pm2_5 pm10 aod : R) : Prop :=
  percent cloud_cover /\ percent cloud_low /\ percent cloud_mid
  /\ percent cloud_high /\ percent humidity
  /\ 0 <= visibility /\ 0 <= pm2_5 /\ 0 <= pm10 /\ 0 <= aod.

(** Readings on which no operation of [score_sunset] overflows, with a
    margin: the four distances squared by [gaussian_score] and the three
    cloud layers are at most [huge] in absolute value, and the argument of
    [math.exp] on line 15 is at most 700. *)
Definition no_overflow
  (cloud_cover cloud_low cloud_mid cloud_high humidity pm2_5 aod : R)
  : Prop :=
  Rabs (cloud_cover - 50) <= huge
  /\ Rabs cloud_low <= huge /\ Rabs cloud_mid <= huge
  /\ Rabs cloud_high <= huge
  /\ - ((cloud_mid + cloud_high) / 2 - cloud_low) / 20 <= 700
  /\ Rabs (pm2_5 - 15) <= huge
  /\ Rabs (aod - 0.3) <= huge
  /\ Rabs (humidity - 60) <= huge.

(** ** The rating lookup of timeline.py and weather.py *)

Definition ratings : list string :=
  ["Poor"; "Fair"; "Good"; "Great"; "Amazing"]%string.

(** Python's [x // y] on floats: the floor of the quotient, as a float. *)
Definition floordiv (x y : R) : Py R :=
  ([(x, y)],
   if Req_dec_T y 0 then Raise ZeroDivisionError
   else Ok (IZR (Zfloor (x / y)))).

(** Python's [int(x)] on a float: truncation towards zero. *)
Definition int (x : R) : Z :=
  if Rle_dec 0 x then Zfloor x else Zceil x.

(** Python's [l[i]]: a negative index counts from the end, and an index
    outside [-len(l) .. len(l) - 1] raises [IndexError]. *)
Definition getitem {A : Type} (l : list A) (i : Z) : Py A :=
  let n := Z.of_nat (List.length l) in
  let j := if (i <? 0)%Z then (i + n)%Z else i in
  ([], if ((0 <=? j) && (j <? n))%Z%bool
       then match nth_error l (Z.to_nat j) with
            | Some a => Ok a
            | None => Raise IndexError
            end
       else Raise IndexError).

(** [ratings[int(score // 20)]]. *)
Definition rating (score : R) : Py string :=
  q <- floordiv score 20 ;;
  getitem ratings (int q).

(** ** The sunset-hour aligner of timeline.py *)

Record datetime : Type := {
  year : Z;
  month : Z;
  day : Z;
  hour : Z;
  minute : Z
}.

(** Python's [l[a:b]] for [0 <= a <= b]: clipped to the list. *)
Definition slice {A : Type} (l : list A) (a b : nat) : list A :=
  firstn (b - a) (skipn a l).

(** Lines 105-109: the [for i, t in enumerate(...)] loop with its [break];
    [i] is the running index. *)
Fixpoint scan (day_start_idx : Z) (sunset_hour : Z) (i : nat)
  (ts : list datetime) : option Z :=
  match ts with
  | [] => None
  | t :: rest =>
      if (hour t =? sunset_hour)%Z then Some (day_start_idx + Z.of_nat i)%Z
      else scan day_start_idx sunset_hour (S i) rest
  end.

(** Lines 97 and 105-113: the index chosen for one day's slice. *)
Definition align (day_start_idx : Z) (day_hourly_times : list datetime)
  (sunset_time : datetime) : Z :=
  let sunset_hour := hour sunset_time in
  match scan day_start_idx sunset_hour 0 day_hourly_times with
  | Some sunset_index => sunset_index
  | None => (day_start_idx + Z.of_nat (List.length day_hourly_times) - 1)%Z
  end.

(** Lines 101-113 for day number [day_idx] of the timeline. *)
Definition sunset_index (hourly_times : list datetime) (day_idx : nat)
  (sunset_time : datetime) : Z :=
  let day_start_idx := (day_idx * 24)%nat in
  let day_hourly_times :=
    slice hourly_times day_start_idx (day_start_idx + 24) in
  align (Z.of_nat day_start_idx) day_hourly_times sunset_time.

(** The position of the first entry of a slice whose hour is [h]. *)
Definition first_match (h : Z) (ts : list datetime) (k : nat) : Prop :=
  (exists t, nth_error ts k = Some t /\ hour t = h)
  /\ forall j t, (j < k)%nat -> nth_error ts j = Some t -> hour t <> h.

(** A day of three hourly entries (a short slice) starting at global index
    24, once with a sunset at 01:47, which the second entry matches, and
    once with a sunset at 18:05, which no entry matches. *)
Definition sample_day : list datetime :=
  [ {| year := 2024; month := 6; day := 2; hour := 0; minute := 0 |};
    {| year := 2024; month := 6; day := 2; hour := 1; minute := 0 |};
    {| year := 2024; month := 6; day := 2; hour := 2; minute := 0 |} ].

Definition sample_sunset (h m : Z) : datetime :=
  {| year := 2024; month := 6; day := 2; hour := h; minute := m |}.

(** ** weather.py: the index of the sunset hour *)

Module Weather.

(** What [next(...)] on a generator yields: its first item, or
    [StopIteration] when the generator is exhausted. *)
Inductive next_result : Type :=
| Next (i : nat)
| StopIteration.

(** The generator [(i for i, t in enumerate(hourly_times)
    if t.hour == sunset_hour)] advanced to its first item; [i] is the running
    index of [enumerate]. *)
Fixpoint next_index (sunset_hour : Z) (i : nat) (hourly_times : list datetime)
  : next_result :=
  match hourly_times with
  | [] => StopIteration
  | t :: rest =>
      if (hour t =? sunset_hour)%Z then Next i
      else next_index sunset_hour (S i) rest
  end.

(** Lines 32-36 of weather.py. *)
Definition sunset_index (hourly_times : list datetime)
  (sunset_time : datetime) : next_result :=
  let sunset_hour := hour sunset_time in
  next_index sunset_hour 0 hourly_times.

End Weather.

(** ** timeline.py: [calculate_sunset_scores] *)

(** The parsed responses of the two APIs.  A JSON number is [Some x], a JSON
    [null] is [None]; the keys the code reads are the fields, so a response
    with a missing key is outside this type.  The ISO strings of
    ["daily"]["sunset"] and ["hourly"]["time"] are taken as already parsed by
    [datetime.fromisoformat]. *)
Record weather_response : Type := {
  daily_sunset : list datetime;
  hourly_time : list datetime;
  hourly_cloud_cover : list (option R);
  hourly_cloud_cover_low : list (option R);
  hourly_cloud_cover_mid : list (option R);
  hourly_cloud_cover_high : list (option R);
  hourly_relative_humidity_2m : list (option R);
  hourly_visibility : list (option R);
  hourly_vapour_pressure_deficit : list (option R)
}.

Record air_quality_response : Type := {
  hourly_pm2_5 : list (option R);
  hourly_pm10 : list (option R);
  hourly_aerosol_optical_depth : list (option R)
}.

(** Python's [x or 0] on a number or [None]: [None] and 0 are falsy. *)
Definition or_0 (x : option R) : R :=
  match x with
  | Some v => if Req_dec_T v 0 then 0 else v
  | None => 0
  end.

(** [series[sunset_index] or 0]. *)
Definition reading (series : list (option R)) (sunset_index : Z) : Py R :=
  x <- getitem series sunset_index ;;
  ret (or_0 x).

(** A [datetime.date]: year, month, day, ordered lexicographically. *)
Definition date : Type := (Z * Z * Z)%type.

Definition date_of (t : datetime) : date := (year t, month t, day t).

Definition date_ltb (a b : date) : bool :=
  let '(y1, m1, d1) := a in
  let '(y2, m2, d2) := b in
  ((y1 <? y2) || ((y1 =? y2) && ((m1 <? m2) || ((m1 =? m2) && (d1 <? d2)))))%Z%bool.

Definition date_eqb (a b : date) : bool :=
  let '(y1, m1, d1) := a in
  let '(y2, m2, d2) := b in
  ((y1 =? y2) && (m1 =? m2) && (d1 =? d2))%Z%bool.

(** The ['factors'] dict of one result. *)
Record factors : Type := {
  factor_cloud_cover : R;
  factor_cloud_low : R;
  factor_cloud_mid : R;
  factor_cloud_high : R;
  factor_humidity : R;
  factor_visibility : R;
  factor_vpd : R;
  factor_pm2_5 : R;
  factor_pm10 : R;
  factor_aod : R
}.

(** One dict of [timeline_results]. *)
Record timeline_result : Type := {
  result_date : date;
  result_sunset_time : datetime;
  result_score : R;
  result_data_type : string;
  result_factors : factors
}.

(** Lines 138-143; [today] is [datetime.now().date()]. *)
Definition data_type (sunset_date today : date) : string :=
  if date_ltb sunset_date today then "historical"%string
  else if date_eqb sunset_date today then "current"%string
  else "forecast"%string.

(** Lines 96-162: the body of the loop for day [day_idx]. *)
Definition timeline_entry (weather_data : weather_response)
  (air_quality_data : air_quality_response) (today : date)
  (day_idx : nat) (sunset_time : datetime) : Py timeline_result :=
  let sunset_index :=
    sunset_index (hourly_time weather_data) day_idx sunset_time in
  cloud_cover <- reading (hourly_cloud_cover weather_data) sunset_index ;;
  cloud_low <- reading (hourly_cloud_cover_low weather_data) sunset_index ;;
  cloud_mid <- reading (hourly_cloud_cover_mid weather_data) sunset_index ;;
  cloud_high <- reading (hourly_cloud_cover_high weather_data) sunset_index ;;
  humidity <-
    reading (hourly_relative_humidity_2m weather_data) sunset_index ;;
  visibility <- reading (hourly_visibility weather_data) sunset_index ;;
  vpd <-
    reading (hourly_vapour_pressure_deficit weather_data) sunset_index ;;
  pm2_5 <- reading (hourly_pm2_5 air_quality_data) sunset_index ;;
  pm10 <- reading (hourly_pm10 air_quality_data) sunset_index ;;
  aod <-
    reading (hourly_aerosol_optical_depth air_quality_data) sunset_index ;;
  score <- score_sunset cloud_cover cloud_low cloud_mid cloud_high
             humidity visibility pm2_5 pm10 aod ;;
  let sunset_date := date_of sunset_time in
  ret {| result_date := date_of sunset_time;
         result_sunset_time := sunset_time;
         result_score := score;
         result_data_type := data_type sunset_date today;
         result_factors :=
           {| factor_cloud_cover := cloud_cover;
              factor_cloud_low := cloud_low;
              factor_cloud_mid := cloud_mid;
              factor_cloud_high := cloud_high;
              factor_humidity := humidity;
              factor_visibility := visibility;
              factor_vpd := vpd;
              factor_pm2_5 := pm2_5;
              factor_pm10 := pm10;
              factor_aod := aod |} |}.

(** The loop [for day_idx, sunset_str in enumerate(sunset_times_str)] from
    day [day_idx] on: the results are appended in order, and an exception
    ends the whole call. *)
Fixpoint timeline_loop (weather_data : weather_response)
  (air_quality_data : air_quality_response) (today : date)
  (day_idx : nat) (sunset_times : list datetime)
  : Py (list timeline_result) :=
  match sunset_times with
  | [] => ret []
  | sunset_time :: rest =>
      entry <- timeline_entry weather_data air_quality_data today
                 day_idx sunset_time ;;
      timeline_results <- timeline_loop weather_data air_quality_data today
                            (S day_idx) rest ;;
      ret (entry :: timeline_results)
  end.

Definition calculate_sunset_scores (weather_data : weather_response)
  (air_quality_data : air_quality_response) (today : date)
  : Py (list timeline_result) :=
  timeline_loop weather_data air_quality_data today 0
    (daily_sunset weather_data).

(** The ten hourly series that [calculate_sunset_scores] reads, in the
    order of lines 116-126. *)
Definition all_series (weather_data : weather_response)
  (air_quality_data : air_quality_response) : list (list (option R)) :=
  [ hourly_cloud_cover weather_data;
    hourly_cloud_cover_low weather_data;
    hourly_cloud_cover_mid weather_data;
    hourly_cloud_cover_high weather_data;
    hourly_relative_humidity_2m weather_data;
    hourly_visibility weather_data;
    hourly_vapour_pressure_deficit weather_data;
    hourly_pm2_5 air_quality_data;
    hourly_pm10 air_quality_data;
    hourly_aerosol_optical_depth air_quality_data ].

(** The ten values of a ['factors'] dict, in the same order. *)
Definition factor_values (f : factors) : list R :=
  [ factor_cloud_cover f; factor_cloud_low f; factor_cloud_mid f;
    factor_cloud_high f; factor_humidity f; factor_visibility f;
    factor_vpd f; factor_pm2_5 f; factor_pm10 f; factor_aod f ].

(** Every hourly series of the two responses has an entry for each hourly
    timestamp. *)
Definition series_cover_times (weather_data : weather_response)
  (air_quality_data : air_quality_response) : Prop :=
  Forall (fun series =>
            (List.length (hourly_time weather_data)
             <= List.length series)%nat)
    (all_series weather_data air_quality_data).

(** Every entry of the five percentage series is null or within 0 to 100,
    and every entry of the PM2.5 and AOD series is null or within 0 to
    [10^100]. *)
Definition series_in_domain (weather_data : weather_response)
  (air_quality_data : air_quality_response) : Prop :=
  Forall (Forall (fun x => percent (or_0 x)))
    [ hourly_cloud_cover weather_data;
      hourly_cloud_cover_low weather_data;
      hourly_cloud_cover_mid weather_data;
      hourly_cloud_cover_high weather_data;
      hourly_relative_humidity_2m weather_data ]
  /\ Forall (Forall (fun x => 0 <= or_0 x <= huge))
       [ hourly_pm2_5 air_quality_data;
         hourly_aerosol_optical_depth air_quality_data ].

(** The ten values of a result are the entries of the ten hourly series at
    index [i], with [null] and 0 read as 0. *)
Definition read_at (weather_data : weather_response)
  (air_quality_data : air_quality_response) (i : Z) (f : factors) : Prop :=
  Forall2 (fun series v => result (reading series i) = Ok v)
    (all_series weather_data air_quality_data) (factor_values f).

(** The readings of one result, in the argument order of [score_sunset]. *)
Definition score_of_factors (f : factors) : Py R :=
  score_sunset (factor_cloud_cover f) (factor_cloud_low f)
    (factor_cloud_mid f) (factor_cloud_high f) (factor_humidity f)
    (factor_visibility f) (factor_pm2_5 f) (factor_pm10 f) (factor_aod f).

(** A result with its ['data_type'] recomputed for another [today]. *)
Definition retag (today : date) (r : timeline_result) : timeline_result :=
  {| result_date := result_date r;
     result_sunset_time := result_sunset_time r;
     result_score := result_score r;
     result_data_type := data_type (date_of (result_sunset_time r)) today;
     result_factors := result_factors r |}.

(** Sample responses for one day: three hourly entries, one of them with a
    null cloud cover; and an air-quality response whose series are empty. *)
Definition sample_weather : weather_response :=
  {| daily_sunset := [sample_sunset 1 47];
     hourly_time := sample_day;
     hourly_cloud_cover := [Some 40; None; Some 55];
     hourly_cloud_cover_low := [Some 10; Some 10; Some 15];
     hourly_cloud_cover_mid := [Some 30; Some 30; Some 20];
     hourly_cloud_cover_high := [Some 40; Some 35; Some 30];
     hourly_relative_humidity_2m := [Some 65; Some 62; Some 60];
     hourly_visibility := [Some 15000; Some 12000; Some 9000];
     hourly_vapour_pressure_deficit := [Some 1; Some 1; Some 1] |}.

Definition sample_air_quality : air_quality_response :=
  {| hourly_pm2_5 := [Some 18; Some 16; Some 15];
     hourly_pm10 := [Some 45; Some 40; Some 36];
     hourly_aerosol_optical_depth := [Some 0.35; Some 0.3; Some 0.3] |}.

Definition empty_air_quality : air_quality_response :=
  {| hourly_pm2_5 := [];
     hourly_pm10 := [];
     hourly_aerosol_optical_depth := [] |}.

Definition sample_today : date := (2024, 6, 2)%Z.

(** Case analysis on every order test of the goal, each case closed by
    linear arithmetic or by computation. *)
Ltac decide_order :=
  repeat match goal with
    | |- context [Rlt_dec ?a ?b] => destruct (Rlt_dec a b)
    | |- context [Rle_dec ?a ?b] => destruct (Rle_dec a b)
    end;
  try reflexivity; try lra.

(** ** Basic facts on the monad *)

Lemma result_bind {A B : Type} (m : Py A) (f : A -> Py B) :
  result (bind m f)
  = match result m with
    | Ok a => result (f a)
    | Raise e => Raise e
    end.
Proof.
  destruct m as [l [a | e]]; simpl; [| reflexivity].
  destruct (f a); reflexivity.
Qed.

Lemma divisions_bind {A B : Type} (m : Py A) (f : A -> Py B) :
  divisions (bind m f)
  = divisions m ++ match result m with
                   | Ok a => divisions (f a)
                   | Raise _ => []
                   end.
Proof.
  destruct m as [l [a | e]]; simpl.
  - destruct (f a); reflexivity.
  - symmetry; apply app_nil_r.
Qed.

Lemma result_ret {A : Type} (a : A) : result (ret a) = Ok a.
Proof. reflexivity. Qed.

Lemma divisions_ret {A : Type} (a : A) : divisions (ret a) = [].
Proof. reflexivity. Qed.

Lemma result_truediv (x y : R) : y <> 0 -> result (truediv x y) = Ok (x / y).
Proof.
  intros Hy. unfold truediv, result. simpl.
  destruct (Req_dec_T y 0); [contradiction | reflexivity].
Qed.

Lemma divisions_truediv (x y : R) : divisions (truediv x y) = [(x, y)].
Proof. reflexivity. Qed.

(** ** Overflow *)

Lemma huge_sq_lt : huge ^ 2 < float_overflow.
Proof.
  unfold huge, float_overflow.
  rewrite <- pow_mult.
  rewrite !pow_IZR, <- minus_IZR.
  apply IZR_lt. vm_compute. reflexivity.
Qed.

Lemma huge_ge : 1000000 <= huge.
Proof.
  unfold huge. rewrite pow_IZR. apply IZR_le. vm_compute. discriminate.
Qed.

Lemma square_below_overflow (x : R) :
  Rabs x <= huge -> Rabs (x ^ 2) < float_overflow.
Proof.
  intros H. rewrite <- RPow_abs.
  eapply Rle_lt_trans; [| apply huge_sq_lt].
  apply pow_incr. split; [apply Rabs_pos | exact H].
Qed.

Lemma result_float_pow (x : R) (n : nat) :
  Rabs (x ^ n) < float_overflow -> result (float_pow x n) = Ok (x ^ n).
Proof.
  intros H. unfold float_pow, result. simpl.
  destruct (Rle_dec float_overflow (Rabs (x ^ n))); [lra | reflexivity].
Qed.

Lemma float_pow_cases (x : R) (n : nat) :
  result (float_pow x n) = Raise OverflowError
  \/ result (float_pow x n) = Ok (x ^ n).
Proof.
  unfold float_pow, result. simpl.
  destruct (Rle_dec float_overflow (Rabs (x ^ n))); [left | right];
    reflexivity.
Qed.

Lemma float_pow_overflow (x : R) (n : nat) :
  float_overflow <= Rabs (x ^ n) ->
  result (float_pow x n) = Raise OverflowError.
Proof.
  intros H. unfold float_pow, result. simpl.
  destruct (Rle_dec float_overflow (Rabs (x ^ n)));
    [reflexivity | contradiction].
Qed.

Lemma divisions_float_pow (x : R) (n : nat) : divisions (float_pow x n) = [].
Proof. reflexivity. Qed.

Lemma result_math_exp (x : R) :
  x <= exp_overflow -> result (math_exp x) = Ok (exp x).
Proof.
  intros H. unfold math_exp, result. simpl.
  destruct (Rlt_dec exp_overflow x); [lra | reflexivity].
Qed.

Lemma math_exp_cases (x : R) :
  result (math_exp x) = Raise OverflowError
  \/ result (math_exp x) = Ok (exp x).
Proof.
  unfold math_exp, result. simpl.
  destruct (Rlt_dec exp_overflow x); [left | right]; reflexivity.
Qed.

Lemma divisions_math_exp (x : R) : divisions (math_exp x) = [].
Proof. reflexivity. Qed.

Lemma exp_overflow_pos : 700 < exp_overflow.
Proof. unfold exp_overflow. lra. Qed.

(** ** Run lemmas for the scorer *)

Lemma gaussian_exponent_nonpos (distance sigma : R) :
  sigma <> 0 -> - (distance ^ 2) / (2 * sigma ^ 2) <= 0.
Proof.
  intros Hs.
  assert (Hd : 0 <= distance ^ 2) by (simpl; nra).
  assert (Hs2 : 0 < 2 * sigma ^ 2) by (simpl; nra).
  pose proof (Rinv_0_lt_compat _ Hs2). unfold Rdiv. nra.
Qed.

Lemma sigma_square_nonzero (sigma : R) : sigma <> 0 -> 2 * sigma ^ 2 <> 0.
Proof.
  intros Hs H. apply Hs.
  assert (Hsq : sigma * sigma = 0) by lra.
  destruct (Rmult_integral _ _ Hsq); assumption.
Qed.

(** The steps of [gaussian_score] after the two squares. *)
Lemma result_gaussian_tail (distance sigma : R) :
  sigma <> 0 ->
  result (q <- truediv (- (distance ^ 2)) (2 * sigma ^ 2) ;; math_exp q)
  = Ok (gaussian_value distance sigma).
Proof.
  intros Hs.
  rewrite result_bind, result_truediv by (apply sigma_square_nonzero, Hs).
  apply result_math_exp.
  pose proof (gaussian_exponent_nonpos distance sigma Hs).
  pose proof exp_overflow_pos. lra.
Qed.

Lemma result_gaussian_score (distance sigma : R) :
  sigma <> 0 -> Rabs sigma <= huge -> Rabs distance <= huge ->
  result (gaussian_score distance sigma) = Ok (gaussian_value distance sigma).
Proof.
  intros Hs Hsig Hd. unfold gaussian_score.
  rewrite result_bind, result_float_pow by (apply square_below_overflow, Hd).
  rewrite result_bind, result_float_pow
    by (apply square_below_overflow, Hsig).
  apply result_gaussian_tail, Hs.
Qed.

Lemma gaussian_score_cases (distance sigma : R) :
  sigma <> 0 -> Rabs sigma <= huge ->
  result (gaussian_score distance sigma) = Raise OverflowError
  \/ result (gaussian_score distance sigma)
     = Ok (gaussian_value distance sigma).
Proof.
  intros Hs Hsig. unfold gaussian_score. rewrite result_bind.
  destruct (float_pow_cases distance 2) as [-> | ->]; [left; reflexivity |].
  rewrite result_bind, result_float_pow
    by (apply square_below_overflow, Hsig).
  right. apply result_gaussian_tail, Hs.
Qed.

(** Side conditions of the run lemmas of [gaussian_score] at the three
    values of [sigma] that [score_sunset] passes. *)
Ltac sigma_ok :=
  first [ lra
        | (pose proof huge_ge; rewrite Rabs_pos_eq by lra; lra)
        | (rewrite Rabs_Rabsolu; assumption) ].

Lemma result_aod_score (aod : R) :
  Rabs (aod - 0.3) <= huge ->
  result (aod_score aod) = Ok (aod_score_value aod).
Proof.
  intros Ha. unfold aod_score, aod_score_value.
  destruct (Rlt_dec aod 0.05); [reflexivity |].
  rewrite result_bind, result_gaussian_score by sigma_ok. reflexivity.
Qed.

Lemma aod_score_cases (aod : R) :
  result (aod_score aod) = Raise OverflowError
  \/ result (aod_score aod) = Ok (aod_score_value aod).
Proof.
  unfold aod_score, aod_score_value.
  destruct (Rlt_dec aod 0.05); [right; reflexivity |].
  rewrite result_bind.
  destruct (gaussian_score_cases (Rabs (aod - 0.3)) 0.4) as [-> | ->];
    try sigma_ok; [left | right]; reflexivity.
Qed.

Lemma result_size_score (pm2_5 pm10 : R) :
  result (size_score pm2_5 pm10) = Ok (size_score_value pm2_5 pm10).
Proof.
  unfold size_score, size_score_value.
  destruct (Rlt_dec 0 pm2_5); [| reflexivity].
  rewrite result_bind, result_truediv by lra. reflexivity.
Qed.

Lemma result_visibility_score (visibility : R) :
  result (visibility_score visibility)
  = Ok (visibility_score_value visibility).
Proof.
  unfold visibility_score, visibility_score_value.
  destruct (Rlt_dec visibility 5000);
    rewrite result_bind, result_truediv by lra; reflexivity.
Qed.

Lemma one_plus_exp_nonzero (x : R) : 1.0 + exp x <> 0.
Proof. pose proof (exp_pos x). lra. Qed.

Lemma result_score_sunset
  (cloud_cover cloud_low cloud_mid cloud_high
   humidity visibility pm2_5 pm10 aod : R) :
  no_overflow cloud_cover cloud_low cloud_mid cloud_high humidity pm2_5 aod ->
  result (score_sunset cloud_cover cloud_low cloud_mid cloud_high
            humidity visibility pm2_5 pm10 aod)
  = Ok (Rmax 0 (Rmin 100
         (Rmin (base_score_value cloud_cover cloud_low cloud_mid cloud_high
                  humidity visibility pm2_5 pm10 aod)
               (Rmin (cloud_ceiling cloud_cover)
                     (particle_ceiling pm2_5 aod))))).
Proof.
  intros (Hcc & _ & _ & _ & He & Hpm & Haod & Hhum). unfold score_sunset.
  rewrite result_bind, result_gaussian_score by sigma_ok.
  rewrite result_bind, result_truediv by lra.
  rewrite result_bind, result_truediv by lra.
  rewrite result_bind, result_math_exp
    by (pose proof exp_overflow_pos; lra).
  rewrite result_bind, result_truediv by apply one_plus_exp_nonzero.
  rewrite result_bind, result_truediv by lra.
  rewrite result_bind, result_gaussian_score by sigma_ok.
  rewrite result_bind, result_aod_score by exact Haod.
  rewrite result_bind, result_size_score.
  rewrite result_bind, result_gaussian_score by sigma_ok.
  rewrite result_bind, result_visibility_score.
  reflexivity.
Qed.

(** Whatever the readings, [score_sunset] raises [OverflowError] or returns
    the clamped minimum of the weighted sum and the two ceilings. *)
Lemma score_sunset_cases
  (cloud_cover cloud_low cloud_mid cloud_high
   humidity visibility pm2_5 pm10 aod : R) :
  result (score_sunset cloud_cover cloud_low cloud_mid cloud_high
            humidity visibility pm2_5 pm10 aod) = Raise OverflowError
  \/ result (score_sunset cloud_cover cloud_low cloud_mid cloud_high
               humidity visibility pm2_5 pm10 aod)
     = Ok (Rmax 0 (Rmin 100
            (Rmin (base_score_value cloud_cover cloud_low cloud_mid
                     cloud_high humidity visibility pm2_5 pm10 aod)
                  (Rmin (cloud_ceiling cloud_cover)
                        (particle_ceiling pm2_5 aod))))).
Proof.
  unfold score_sunset. rewrite result_bind.
  destruct (gaussian_score_cases (Rabs (cloud_cover - 50)) 20) as [-> | ->];
    try sigma_ok; [left; reflexivity |].
  rewrite result_bind, result_truediv by lra.
  rewrite result_bind, result_truediv by lra.
  rewrite result_bind.
  destruct (math_exp_cases
              (- ((cloud_mid + cloud_high) / 2 - cloud_low) / 20))
    as [-> | ->]; [left; reflexivity |].
  rewrite result_bind, result_truediv by apply one_plus_exp_nonzero.
  rewrite result_bind, result_truediv by lra.
  rewrite result_bind.
  destruct (gaussian_score_cases (Rabs (pm2_5 - 15)) 35) as [-> | ->];
    try sigma_ok; [left; reflexivity |].
  rewrite result_bind.
  destruct (aod_score_cases aod) as [-> | ->]; [left; reflexivity |].
  rewrite result_bind, result_size_score.
  rewrite result_bind.
  destruct (gaussian_score_cases (Rabs (humidity - 60)) 20) as [-> | ->];
    try sigma_ok; [left; reflexivity |].
  rewrite result_bind, result_visibility_score.
  right. reflexivity.
Qed.

Lemma domain_no_overflow
  (cloud_cover cloud_low cloud_mid cloud_high humidity pm2_5 aod : R) :
  percent cloud_cover -> percent cloud_low -> percent cloud_mid ->
  percent cloud_high -> percent humidity ->
  0 <= pm2_5 <= huge -> 0 <= aod <= huge ->
  no_overflow cloud_cover cloud_low cloud_mid cloud_high humidity pm2_5 aod.
Proof.
  unfold percent, no_overflow. intros Hcc Hl Hm Hh Hhum Hpm Haod.
  pose proof huge_ge.
  repeat split; try (apply Rabs_le; lra). lra.
Qed.

Lemma valid_no_overflow
  (cloud_cover cloud_low cloud_mid cloud_high
   humidity visibility pm2_5 pm10 aod : R) :
  valid_reading cloud_cover cloud_low cloud_mid cloud_high
    humidity visibility pm2_5 pm10 aod ->
  pm2_5 <= huge -> aod <= huge ->
  no_overflow cloud_cover cloud_low cloud_mid cloud_high humidity pm2_5 aod.
Proof.
  intros (Hcc & Hl & Hm & Hh & Hhum & _ & Hpm & _ & Haod) Hpm' Haod'.
  apply domain_no_overflow; try assumption; lra.
Qed.

(** Readings in their domains and at most a million are far from any
    overflow. *)
Lemma small_no_overflow
  (cloud_cover cloud_low cloud_mid cloud_high humidity pm2_5 aod : R) :
  percent cloud_cover -> percent cloud_low -> percent cloud_mid ->
  percent cloud_high -> percent humidity ->
  0 <= pm2_5 <= 1000000 -> 0 <= aod <= 1000000 ->
  no_overflow cloud_cover cloud_low cloud_mid cloud_high humidity pm2_5 aod.
Proof.
  intros Hcc Hl Hm Hh Hhum Hpm Haod. pose proof huge_ge.
  apply domain_no_overflow; try assumption; lra.
Qed.

(** What a valid reading makes of [score_sunset]: with [pm2_5] and [aod] up
    to [huge] the call returns; a call that returns gives the clamped
    minimum; a call that raises raises [OverflowError], and then [pm2_5] or
    [aod] is above [huge]. *)
Lemma score_sunset_valid
  (cloud_cover cloud_low cloud_mid cloud_high
   humidity visibility pm2_5 pm10 aod : R) :
  valid_reading cloud_cover cloud_low cloud_mid cloud_high
    humidity visibility pm2_5 pm10 aod ->
  let call := score_sunset cloud_cover cloud_low cloud_mid cloud_high
                humidity visibility pm2_5 pm10 aod in
  let value :=
    Rmax 0 (Rmin 100
      (Rmin (base_score_value cloud_cover cloud_low cloud_mid cloud_high
               humidity visibility pm2_5 pm10 aod)
            (Rmin (cloud_ceiling cloud_cover)
                  (particle_ceiling pm2_5 aod)))) in
  (pm2_5 <= huge -> aod <= huge -> result call = Ok value)
  /\ (forall final : R, result call = Ok final -> final = value)
  /\ (forall e : exn,
        result call = Raise e ->
        e = OverflowError /\ (huge < pm2_5 \/ huge < aod)).
Proof.
  intros Hvalid call value.
  assert (Hok : pm2_5 <= huge -> aod <= huge -> result call = Ok value).
  { intros Hpm Haod. apply result_score_sunset.
    exact (valid_no_overflow _ _ _ _ _ _ _ _ _ Hvalid Hpm Haod). }
  split; [exact Hok |]. split.
  - intros final H.
    destruct (score_sunset_cases cloud_cover cloud_low cloud_mid cloud_high
                humidity visibility pm2_5 pm10 aod) as [Hc | Hc];
      fold call in Hc; rewrite Hc in H; [discriminate |].
    injection H as <-. reflexivity.
  - intros e H.
    destruct (score_sunset_cases cloud_cover cloud_low cloud_mid cloud_high
                humidity visibility pm2_5 pm10 aod) as [Hc | Hc];
      fold call in Hc; rewrite Hc in H; [| discriminate].
    injection H as <-. split; [reflexivity |].
    destruct (Rle_dec pm2_5 huge) as [Hpm | Hpm]; [| left; lra].
    destruct (Rle_dec aod huge) as [Haod | Haod]; [| right; lra].
    rewrite (Hok Hpm Haod) in Hc. discriminate.
Qed.

(** ** The ceilings *)

Lemma cloud_ceiling_low (cloud_cover : R) :
  cloud_cover < 10 -> cloud_ceiling cloud_cover = 30.
Proof.
  intros H. unfold cloud_ceiling. decide_order.
Qed.

Lemma particle_ceiling_heavy (pm2_5 aod : R) :
  75 < pm2_5 \/ 1.5 < aod -> particle_ceiling pm2_5 aod = 40.
Proof.
  intros [H | H]; unfold particle_ceiling; decide_order.
Qed.

(** What the last two lines of [score_sunset] do with a cap [c] between 0
    and 100 that is one of the two ceilings. *)
Lemma capped_le (base c1 c2 c : R) :
  0 <= c -> c1 = c \/ c2 = c ->
  Rmax 0 (Rmin 100 (Rmin base (Rmin c1 c2))) <= c.
Proof.
  intros Hc Hcap.
  apply Rmax_lub; [assumption |].
  eapply Rle_trans; [apply Rmin_r |].
  eapply Rle_trans; [apply Rmin_r |].
  destruct Hcap as [<- | <-]; [apply Rmin_l | apply Rmin_r].
Qed.

Lemma clamp_range (x : R) : 0 <= Rmax 0 (Rmin 100 x) <= 100.
Proof.
  split; [apply Rmax_l |].
  apply Rmax_lub; [lra | apply Rmin_l].
Qed.

(** ** Range and ceiling dominance *)

(** C1: for every reading within the input domains, the final score that
    [score_sunset] returns lies in the closed interval [0, 100].  The call
    returns whenever [pm2_5] and [aod] are at most [10^100]; the only
    exception it can raise on such a reading is the [OverflowError] of
    [distance ** 2], for a [pm2_5] or [aod] above [10^100]. *)
Theorem score_sunset_range
  (cloud_cover cloud_low cloud_mid cloud_high
   humidity visibility pm2_5 pm10 aod : R) :
  valid_reading cloud_cover cloud_low cloud_mid cloud_high
    humidity visibility pm2_5 pm10 aod ->
  let call := score_sunset cloud_cover cloud_low cloud_mid cloud_high
                humidity visibility pm2_5 pm10 aod in
  (pm2_5 <= huge -> aod <= huge ->
   exists final : R, result call = Ok final /\ 0 <= final <= 100)
  /\ (forall final : R, result call = Ok final -> 0 <= final <= 100)
  /\ (forall e : exn,
        result call = Raise e ->
        e = OverflowError /\ (huge < pm2_5 \/ huge < aod)).
Proof.
  intros Hvalid call.
  destruct (score_sunset_valid _ _ _ _ _ _ _ _ _ Hvalid)
    as (Hok & Hvalue & Hraise).
  split; [| split].
  - intros Hpm Haod. eexists. split; [exact (Hok Hpm Haod) |].
    apply clamp_range.
  - intros final H. rewrite (Hvalue final H). apply clamp_range.
  - exact Hraise.
Qed.

(** C3: for every reading within the input domains whose [cloud_cover] is
    below 10, the final score that [score_sunset] returns is at most 30,
    whatever the other eight fields are.  The call returns whenever [pm2_5]
    and [aod] are at most [10^100], and raises nothing but the
    [OverflowError] of a [pm2_5] or [aod] above that. *)
Theorem cloud_ceiling_dominance
  (cloud_cover cloud_low cloud_mid cloud_high
   humidity visibility pm2_5 pm10 aod : R) :
  valid_reading cloud_cover cloud_low cloud_mid cloud_high
    humidity visibility pm2_5 pm10 aod ->
  cloud_cover < 10 ->
  let call := score_sunset cloud_cover cloud_low cloud_mid cloud_high
                humidity visibility pm2_5 pm10 aod in
  (pm2_5 <= huge -> aod <= huge ->
   exists final : R, result call = Ok final /\ final <= 30)
  /\ (forall final : R, result call = Ok final -> final <= 30)
  /\ (forall e : exn,
        result call = Raise e ->
        e = OverflowError /\ (huge < pm2_5 \/ huge < aod)).
Proof.
  intros Hvalid Hcc call.
  destruct (score_sunset_valid _ _ _ _ _ _ _ _ _ Hvalid)
    as (Hok & Hvalue & Hraise).
  assert (Hcap : Rmax 0 (Rmin 100
                   (Rmin (base_score_value cloud_cover cloud_low cloud_mid
                            cloud_high humidity visibility pm2_5 pm10 aod)
                         (Rmin (cloud_ceiling cloud_cover)
                               (particle_ceiling pm2_5 aod)))) <= 30).
  { apply capped_le; [lra |]. left. apply cloud_ceiling_low, Hcc. }
  split; [| split].
  - intros Hpm Haod. eexists. split; [exact (Hok Hpm Haod) | exact Hcap].
  - intros final H. rewrite (Hvalue final H). exact Hcap.
  - exact Hraise.
Qed.

(** C4: for every reading within the input domains with [pm2_5 > 75] or
    [aod > 1.5], the final score that [score_sunset] returns is at most 40,
    whatever the other fields are.  The call returns whenever [pm2_5] and
    [aod] are at most [10^100], and raises nothing but the [OverflowError]
    of a [pm2_5] or [aod] above that. *)
Theorem particle_ceiling_dominance
  (cloud_cover cloud_low cloud_mid cloud_high
   humidity visibility pm2_5 pm10 aod : R) :
  valid_reading cloud_cover cloud_low cloud_mid cloud_high
    humidity visibility pm2_5 pm10 aod ->
  pm2_5 > 75 \/ aod > 1.5 ->
  let call := score_sunset cloud_cover cloud_low cloud_mid cloud_high
                humidity visibility pm2_5 pm10 aod in
  (pm2_5 <= huge -> aod <= huge ->
   exists final : R, result call = Ok final /\ final <= 40)
  /\ (forall final : R, result call = Ok final -> final <= 40)
  /\ (forall e : exn,
        result call = Raise e ->
        e = OverflowError /\ (huge < pm2_5 \/ huge < aod)).
Proof.
  intros Hvalid Hp call.
  destruct (score_sunset_valid _ _ _ _ _ _ _ _ _ Hvalid)
    as (Hok & Hvalue & Hraise).
  assert (Hcap : Rmax 0 (Rmin 100
                   (Rmin (base_score_value cloud_cover cloud_low cloud_mid
                            cloud_high humidity visibility pm2_5 pm10 aod)
                         (Rmin (cloud_ceiling cloud_cover)
                               (particle_ceiling pm2_5 aod)))) <= 40).
  { apply capped_le; [lra |]. right. apply particle_ceiling_heavy.
    destruct Hp; [left | right]; lra. }
  split; [| split].
  - intros Hpm Haod. eexists. split; [exact (Hok Hpm Haod) | exact Hcap].
  - intros final H. rewrite (Hvalue final H). exact Hcap.
  - exact Hraise.
Qed.

(** ** The divisions the scorer evaluates *)







Lemma divisions_visibility_score (visibility : R) :
  divisions (visibility_score visibility)
  = if Rlt_dec visibility 5000 then [(visibility, 5000)]
    else [(visibility, 10000)].
Proof.
  unfold visibility_score. destruct (Rlt_dec visibility 5000);
    rewrite divisions_bind, divisions_truediv;
    rewrite result_truediv by lra; reflexivity.
Qed.


(** ** The guard on the particle size ratio *)


(** ** The aligner *)

Section Scan.

Variables (day_start_idx h : Z).

Lemma scan_some (ts : list datetime) :
  forall (i : nat) (r : Z),
    scan day_start_idx h i ts = Some r ->
    exists k : nat,
      first_match h ts k /\ r = (day_start_idx + Z.of_nat (i + k))%Z.
Proof.
  induction ts as [| t rest IH]; intros i r Hscan; simpl in Hscan.
  - discriminate.
  - destruct (Z.eqb_spec (hour t) h) as [Heq | Hne].
    + injection Hscan as <-. exists 0%nat. split.
      * split; [exists t; split; [reflexivity | exact Heq] |].
        intros j t' Hj. lia.
      * rewrite Nat.add_0_r. reflexivity.
    + destruct (IH (S i) r Hscan) as (k & [[t' [Hnth Hh]] Hbefore] & ->).
      exists (S k). split.
      * split; [exists t'; split; assumption |].
        intros [| j] u Hj Hu; simpl in Hu.
        -- injection Hu as <-. exact Hne.
        -- apply (Hbefore j u); [lia | exact Hu].
      * f_equal. lia.
Qed.

Lemma scan_none (ts : list datetime) :
  forall i : nat,
    scan day_start_idx h i ts = None ->
    Forall (fun t => hour t <> h) ts.
Proof.
  induction ts as [| t rest IH]; intros i Hscan; simpl in Hscan.
  - constructor.
  - destruct (Z.eqb_spec (hour t) h) as [Heq | Hne]; [discriminate |].
    constructor; [exact Hne | exact (IH (S i) Hscan)].
Qed.

Lemma first_match_lt (ts : list datetime) (k : nat) :
  first_match h ts k -> (k < List.length ts)%nat.
Proof.
  intros [[t [Hnth _]] _]. apply nth_error_Some. congruence.
Qed.

Lemma first_match_unique (ts : list datetime) (k k' : nat) :
  first_match h ts k -> first_match h ts k' -> k = k'.
Proof.
  intros [[t [Ht Hh]] Hk] [[t' [Ht' Hh']] Hk'].
  destruct (Nat.lt_trichotomy k k') as [Hlt | [Heq | Hgt]]; [| exact Heq |].
  - exfalso. exact (Hk' k t Hlt Ht Hh).
  - exfalso. exact (Hk k' t' Hgt Ht' Hh').
Qed.

Lemma first_match_not_all_differ (ts : list datetime) (k : nat) :
  first_match h ts k -> ~ Forall (fun t => hour t <> h) ts.
Proof.
  intros [[t [Ht Hh]] _] Hall.
  rewrite Forall_forall in Hall.
  exact (Hall t (nth_error_In _ _ Ht) Hh).
Qed.

End Scan.

Lemma align_bounds (day_start_idx : Z) (day_hourly_times : list datetime)
  (sunset_time : datetime) :
  day_hourly_times <> [] ->
  (day_start_idx
   <= align day_start_idx day_hourly_times sunset_time
   < day_start_idx + Z.of_nat (List.length day_hourly_times))%Z.
Proof.
  intros Hne.
  assert (Hlen : (0 < List.length day_hourly_times)%nat).
  { destruct day_hourly_times; [contradiction | simpl; lia]. }
  unfold align.
  destruct (scan day_start_idx (hour sunset_time) 0 day_hourly_times)
    as [r |] eqn:Hscan; [| lia].
  destruct (scan_some _ _ _ _ _ Hscan) as (k & Hk & ->).
  pose proof (first_match_lt _ _ _ Hk). simpl. lia.
Qed.

(** C5: on a non-empty day slice the aligner returns the position of the
    first entry whose hour equals the sunset hour, and the position of the
    last entry when no entry has that hour; one of the two cases always
    applies, and the index returned lies inside the slice.  [align] is a
    total function: no input makes it raise. *)
Theorem align_first_match_or_last
  (day_start_idx : Z) (day_hourly_times : list datetime)
  (sunset_time : datetime) :
  day_hourly_times <> [] ->
  let h := hour sunset_time in
  let n := Z.of_nat (List.length day_hourly_times) in
  let sunset_index := align day_start_idx day_hourly_times sunset_time in
  (forall k : nat,
      first_match h day_hourly_times k ->
      sunset_index = (day_start_idx + Z.of_nat k)%Z)
  /\ (Forall (fun t => hour t <> h) day_hourly_times ->
      sunset_index = (day_start_idx + n - 1)%Z)
  /\ ((exists k : nat, first_match h day_hourly_times k)
      \/ Forall (fun t => hour t <> h) day_hourly_times)
  /\ (day_start_idx <= sunset_index < day_start_idx + n)%Z.
Proof.
  intros Hne h n sunset_index.
  assert (Hlen : (0 < n)%Z).
  { subst n. destruct day_hourly_times; [contradiction | simpl; lia]. }
  subst sunset_index. unfold align. fold h.
  destruct (scan day_start_idx h 0 day_hourly_times) as [r |] eqn:Hscan.
  - destruct (scan_some _ _ _ _ _ Hscan) as (k & Hk & ->).
    simpl. repeat split.
    + intros k' Hk'. rewrite (first_match_unique _ _ _ _ Hk Hk').
      reflexivity.
    + intros Hall. exfalso.
      exact (first_match_not_all_differ _ _ _ Hk Hall).
    + left. exists k. exact Hk.
    + lia.
    + pose proof (first_match_lt _ _ _ Hk). subst n. lia.
  - pose proof (scan_none _ _ _ _ Hscan) as Hall. repeat split.
    + intros k Hk. exfalso.
      exact (first_match_not_all_differ _ _ _ Hk Hall).
    + right. exact Hall.
    + lia.
    + lia.
Qed.

Lemma slice_length {A : Type} (l : list A) (a b : nat) :
  (List.length (slice l a b) <= List.length l - a)%nat.
Proof.
  unfold slice. rewrite length_firstn, length_skipn. lia.
Qed.

(** The global index used to read the hourly series is a valid index of
    the series whenever the day has at least one hourly entry. *)
Lemma sunset_index_in_range (hourly_times : list datetime) (day_idx : nat)
  (sunset_time : datetime) :
  slice hourly_times (day_idx * 24) (day_idx * 24 + 24) <> [] ->
  (0 <= sunset_index hourly_times day_idx sunset_time
   < Z.of_nat (List.length hourly_times))%Z.
Proof.
  intros Hne. unfold sunset_index.
  destruct (align_bounds (Z.of_nat (day_idx * 24)) _ sunset_time Hne)
    as [Hlo Hhi].
  pose proof (slice_length hourly_times (day_idx * 24) (day_idx * 24 + 24)).
  lia.
Qed.

(** ** The visibility sub-score *)

Lemma visibility_score_below (visibility : R) :
  visibility < 5000 ->
  result (visibility_score visibility) = Ok (visibility / 5000 * 100).
Proof.
  intros Hv. rewrite result_visibility_score.
  unfold visibility_score_value.
  destruct (Rlt_dec visibility 5000); [reflexivity | contradiction].
Qed.

Lemma visibility_score_5000 : result (visibility_score 5000) = Ok 50.
Proof.
  rewrite result_visibility_score. unfold visibility_score_value.
  destruct (Rlt_dec 5000 5000); [lra |].
  f_equal. unfold Rmin. destruct (Rle_dec 100 (5000 / 10000 * 100)); lra.
Qed.

(** C10: the visibility sub-score is not monotone.  At 4999 m it is 99.98
    and at 5000 m it is 50, so it decreases between two increasing
    visibilities; below 5000 m it comes as close to 100 as one likes; and the
    division evaluated has divisor 5000 below the threshold and 10000 at
    it. *)
Theorem visibility_score_not_monotone :
  (exists v1 v2 s1 s2 : R,
      v1 < v2
      /\ result (visibility_score v1) = Ok s1
      /\ result (visibility_score v2) = Ok s2
      /\ s1 > s2)
  /\ result (visibility_score 4999) = Ok (4999 / 50)
  /\ result (visibility_score 5000) = Ok 50
  /\ (forall eps : R, 0 < eps ->
      exists v s : R,
        0 <= v < 5000
        /\ result (visibility_score v) = Ok s
        /\ 100 - eps < s < 100)
  /\ divisions (visibility_score 4999) = [(4999, 5000)]
  /\ divisions (visibility_score 5000) = [(5000, 10000)].
Proof.
  assert (H4999 : result (visibility_score 4999) = Ok (4999 / 50)).
  { rewrite visibility_score_below by lra. f_equal. lra. }
  split; [| split; [| split; [| split; [| split]]]].
  - exists 4999, 5000, (4999 / 50), 50.
    split; [lra |]. split; [exact H4999 |].
    split; [exact visibility_score_5000 | lra].
  - exact H4999.
  - exact visibility_score_5000.
  - intros eps Heps.
    assert (Hm : 0 < Rmin eps 100 <= 100).
    { split; [apply Rmin_glb_lt; lra | apply Rmin_r]. }
    assert (Hm' : Rmin eps 100 <= eps) by apply Rmin_l.
    exists (5000 - 25 * Rmin eps 100), (100 - Rmin eps 100 / 2).
    split; [lra |]. split; [| lra].
    rewrite visibility_score_below by lra. f_equal. lra.
  - rewrite divisions_visibility_score.
    destruct (Rlt_dec 4999 5000); [reflexivity | lra].
  - rewrite divisions_visibility_score.
    destruct (Rlt_dec 5000 5000); [lra | reflexivity].
Qed.

(** ** The rating lookup *)

Lemma int_IZR (z : Z) : int (IZR z) = z.
Proof.
  unfold int. destruct (Rle_dec 0 (IZR z)); [apply ZfloorZ |].
  apply Zceil_eq. lra.
Qed.

Lemma result_floordiv (x y : R) :
  y <> 0 -> result (floordiv x y) = Ok (IZR (Zfloor (x / y))).
Proof.
  intros Hy. unfold floordiv, result. simpl.
  destruct (Req_dec_T y 0); [contradiction | reflexivity].
Qed.

Lemma result_rating (score : R) :
  result (rating score) = result (getitem ratings (Zfloor (score / 20))).
Proof.
  unfold rating. rewrite result_bind, result_floordiv by lra.
  rewrite int_IZR. reflexivity.
Qed.

Lemma Zfloor_div20 (score : R) (k : Z) :
  20 * IZR k <= score < 20 * IZR k + 20 -> Zfloor (score / 20) = k.
Proof. intros H. apply Zfloor_eq. lra. Qed.

(** C2: the lookup at the top of the range.  For the score 100 the index
    [int(100 // 20)] is 5, one past the last of the five labels, and the
    lookup raises [IndexError] instead of returning "Amazing". *)
Theorem rating_100_index_error :
  result (rating 100) = Raise IndexError.
Proof.
  rewrite result_rating, (Zfloor_div20 100 5) by lra. reflexivity.
Qed.

(** Below 100 every score of the range has a label. *)
Lemma rating_below_100 (score : R) :
  0 <= score < 100 ->
  exists label : string,
    result (rating score) = Ok label /\ In label ratings.
Proof.
  intros Hs. rewrite result_rating.
  pose proof (Zfloor_bound (score / 20)) as Hb.
  assert (Hk : (0 <= Zfloor (score / 20) < 5)%Z).
  { split.
    - apply (Zfloor_lub 0). lra.
    - apply lt_IZR. lra. }
  assert (Hcases : Zfloor (score / 20) = 0%Z \/ Zfloor (score / 20) = 1%Z
                   \/ Zfloor (score / 20) = 2%Z \/ Zfloor (score / 20) = 3%Z
                   \/ Zfloor (score / 20) = 4%Z) by lia.
  destruct Hcases as [-> | [-> | [-> | [-> | ->]]]];
    eexists; (split; [reflexivity | simpl; tauto]).
Qed.

Lemma rating_labels :
  forall score : R,
    (0 <= score < 20 -> result (rating score) = Ok "Poor"%string)
    /\ (20 <= score < 40 -> result (rating score) = Ok "Fair"%string)
    /\ (40 <= score < 60 -> result (rating score) = Ok "Good"%string)
    /\ (60 <= score < 80 -> result (rating score) = Ok "Great"%string)
    /\ (80 <= score < 100 -> result (rating score) = Ok "Amazing"%string).
Proof.
  intros score. repeat split; intros H; rewrite result_rating.
  - rewrite (Zfloor_div20 score 0) by lra. reflexivity.
  - rewrite (Zfloor_div20 score 1) by lra. reflexivity.
  - rewrite (Zfloor_div20 score 2) by lra. reflexivity.
  - rewrite (Zfloor_div20 score 3) by lra. reflexivity.
  - rewrite (Zfloor_div20 score 4) by lra. reflexivity.
Qed.

(** ** Bounds on the sub-scores *)

Lemma gaussian_value_abs (y sigma : R) :
  gaussian_value (Rabs y) sigma = exp (- (y ^ 2) / (2 * sigma ^ 2)).
Proof. unfold gaussian_value. rewrite pow2_abs. reflexivity. Qed.

Lemma gaussian_value_ideal (x sigma : R) :
  gaussian_value (Rabs (x - x)) sigma = 1.
Proof.
  rewrite gaussian_value_abs.
  replace (- ((x - x) ^ 2) / (2 * sigma ^ 2)) with 0.
  - apply exp_0.
  - unfold Rdiv. ring.
Qed.

Lemma gaussian_value_range (distance sigma : R) :
  sigma <> 0 -> 0 < gaussian_value distance sigma <= 1.
Proof.
  intros Hs. unfold gaussian_value. split; [apply exp_pos |].
  rewrite <- exp_0.
  assert (Hd : 0 <= distance ^ 2) by (simpl; nra).
  assert (Hs2 : 0 < 2 * sigma ^ 2) by (simpl; nra).
  assert (Hq : - (distance ^ 2) / (2 * sigma ^ 2) <= 0).
  { unfold Rdiv. pose proof (Rinv_0_lt_compat _ Hs2). nra. }
  destruct Hq as [Hq | ->]; [left; apply exp_increasing, Hq | right; reflexivity].
Qed.

Lemma sigmoid_range (x : R) : 0 < 1.0 / (1.0 + exp x) < 1.
Proof.
  pose proof (exp_pos x) as He.
  assert (Hi : 0 < / (1.0 + exp x)) by (apply Rinv_0_lt_compat; lra).
  assert (Hm : (1.0 + exp x) * / (1.0 + exp x) = 1) by (apply Rinv_r; lra).
  unfold Rdiv. nra.
Qed.

Lemma exp_neg_lower (x : R) : 1 - x <= exp (- x).
Proof. pose proof (exp_ineq1_le (- x)). lra. Qed.

Lemma exp_neg_upper (x : R) : 0 <= x -> exp (- x) <= 1 / (1 + x).
Proof.
  intros Hx. rewrite exp_Ropp. unfold Rdiv. rewrite Rmult_1_l.
  apply Rinv_le_contravar; [lra | apply exp_ineq1_le].
Qed.

Lemma exp_double (x : R) : exp (2 * x) = exp x * exp x.
Proof. rewrite <- exp_plus. f_equal. lra. Qed.

Lemma square_le (a b : R) : 0 <= a <= b -> 0 <= a * a <= b * b.
Proof. intros H. nra. Qed.

(** [exp (-5/4)] lies between [(1 - 5/64)^16] and [1 / (1 + 5/128)^32]. *)
Lemma exp_neg_5_4_bounds : 0.27 < exp (- (5 / 4)) < 0.30.
Proof.
  split.
  - pose proof (exp_neg_lower (5 / 64)) as H0.
    assert (H1 : 0 <= (59/64) * (59/64) <= exp (- (5 / 32))).
    { replace (- (5 / 32)) with (2 * - (5 / 64)) by lra.
      rewrite exp_double. apply square_le. lra. }
    assert (H2 : 0 <= (59/64) ^ 4 <= exp (- (5 / 16))).
    { replace (- (5 / 16)) with (2 * - (5 / 32)) by lra.
      rewrite exp_double.
      replace ((59/64) ^ 4) with ((59/64 * (59/64)) * (59/64 * (59/64))) by ring.
      apply square_le, H1. }
    assert (H3 : 0 <= (59/64) ^ 8 <= exp (- (5 / 8))).
    { replace (- (5 / 8)) with (2 * - (5 / 16)) by lra.
      rewrite exp_double.
      replace ((59/64) ^ 8) with ((59/64) ^ 4 * (59/64) ^ 4) by ring.
      apply square_le, H2. }
    assert (H4 : 0 <= (59/64) ^ 16 <= exp (- (5 / 4))).
    { replace (- (5 / 4)) with (2 * - (5 / 8)) by lra.
      rewrite exp_double.
      replace ((59/64) ^ 16) with ((59/64) ^ 8 * (59/64) ^ 8) by ring.
      apply square_le, H3. }
    assert (Hc : 0.27 < (59/64) ^ 16) by (simpl; lra).
    lra.
  - pose proof (exp_ineq1_le (5 / 128)) as H0.
    assert (H1 : 0 <= (133/128) ^ 2 <= exp (5 / 64)).
    { replace (5 / 64) with (2 * (5 / 128)) by lra.
      rewrite exp_double.
      replace ((133/128) ^ 2) with (133/128 * (133/128)) by ring.
      apply square_le. lra. }
    assert (H2 : 0 <= (133/128) ^ 4 <= exp (5 / 32)).
    { replace (5 / 32) with (2 * (5 / 64)) by lra.
      rewrite exp_double.
      replace ((133/128) ^ 4) with ((133/128) ^ 2 * (133/128) ^ 2) by ring.
      apply square_le, H1. }
    assert (H3 : 0 <= (133/128) ^ 8 <= exp (5 / 16)).
    { replace (5 / 16) with (2 * (5 / 32)) by lra.
      rewrite exp_double.
      replace ((133/128) ^ 8) with ((133/128) ^ 4 * (133/128) ^ 4) by ring.
      apply square_le, H2. }
    assert (H4 : 0 <= (133/128) ^ 16 <= exp (5 / 8)).
    { replace (5 / 8) with (2 * (5 / 16)) by lra.
      rewrite exp_double.
      replace ((133/128) ^ 16) with ((133/128) ^ 8 * (133/128) ^ 8) by ring.
      apply square_le, H3. }
    assert (H5 : 0 <= (133/128) ^ 32 <= exp (5 / 4)).
    { replace (5 / 4) with (2 * (5 / 8)) by lra.
      rewrite exp_double.
      replace ((133/128) ^ 32) with ((133/128) ^ 16 * (133/128) ^ 16) by ring.
      apply square_le, H4. }
    assert (Hc : 10 / 3 < (133/128) ^ 32) by (simpl; lra).
    rewrite exp_Ropp.
    assert (Hi : / exp (5 / 4) < / (10 / 3)).
    { apply Rinv_lt_contravar; [| lra].
      apply Rmult_lt_0_compat; [lra | apply exp_pos]. }
    replace (/ (10 / 3)) with 0.30 in Hi by lra. exact Hi.
Qed.

Lemma gaussian_value_at (y sigma x : R) :
  - (y ^ 2) / (2 * sigma ^ 2) = - x ->
  gaussian_value (Rabs y) sigma = exp (- x).
Proof. intros H. rewrite gaussian_value_abs, H. reflexivity. Qed.

Lemma gaussian_value_between (y sigma x : R) :
  0 <= x ->
  - (y ^ 2) / (2 * sigma ^ 2) = - x ->
  1 - x <= gaussian_value (Rabs y) sigma <= 1 / (1 + x).
Proof.
  intros Hx H. rewrite (gaussian_value_at _ _ _ H).
  split; [apply exp_neg_lower | apply exp_neg_upper, Hx].
Qed.

Lemma clamp_id (b : R) :
  0 <= b <= 100 -> Rmax 0 (Rmin 100 (Rmin b (Rmin 100 100))) = b.
Proof.
  intros Hb.
  rewrite (Rmin_left 100 100) by lra.
  rewrite (Rmin_left b 100) by lra.
  rewrite (Rmin_right 100 b) by lra.
  apply Rmax_right. lra.
Qed.

(** ** The three sample calls of sunset_score.py *)

Lemma size_score_value_favorable (pm2_5 pm10 : R) :
  0 < pm2_5 -> 2 * pm2_5 <= pm10 <= 3.5 * pm2_5 ->
  size_score_value pm2_5 pm10 = 100.
Proof.
  intros Hpm Hr. unfold size_score_value.
  assert (Hq : 2.0 <= pm10 / pm2_5 <= 3.5).
  { assert (Hi : 0 < / pm2_5) by (apply Rinv_0_lt_compat, Hpm).
    assert (Hm : pm2_5 * / pm2_5 = 1) by (apply Rinv_r; lra).
    unfold Rdiv. nra. }
  decide_order.
Qed.

Lemma visibility_score_value_far (visibility : R) :
  10000 <= visibility -> visibility_score_value visibility = 100.
Proof.
  intros Hv. unfold visibility_score_value.
  destruct (Rlt_dec visibility 5000); [lra |].
  apply Rmin_left. lra.
Qed.

Lemma cloud_ceiling_high (cloud_cover : R) :
  25 <= cloud_cover -> cloud_ceiling cloud_cover = 100.
Proof.
  intros H. unfold cloud_ceiling. decide_order.
Qed.

Lemma particle_ceiling_clean (pm2_5 aod : R) :
  pm2_5 <= 55 -> aod <= 1.0 -> particle_ceiling pm2_5 aod = 100.
Proof.
  intros Hp Ha. unfold particle_ceiling. decide_order.
Qed.

Lemma aod_score_value_gaussian (aod : R) :
  0.05 <= aod ->
  aod_score_value aod = gaussian_value (Rabs (aod - 0.3)) 0.4 * 100.
Proof.
  intros Ha. unfold aod_score_value. decide_order.
Qed.

Lemma cloud_score_value_pos (cloud_cover cloud_low cloud_mid cloud_high : R) :
  0 < cloud_score_value cloud_cover cloud_low cloud_mid cloud_high < 100.
Proof.
  unfold cloud_score_value.
  pose proof (gaussian_value_range (Rabs (cloud_cover - 50)) 20).
  pose proof (sigmoid_range
                (- ((cloud_mid + cloud_high) / 2 - cloud_low) / 20)).
  lra.
Qed.

(** C6: Scenario C is the third sample call of the source, whose comment
    reads "Should be capped at 50".  The call returns 30, not 50: the base
    score is above 60, and [cloud_cover = 5] selects the 30-point cloud
    ceiling, which binds. *)
Theorem scenario_C_returns_30 :
  60 < base_score_value 5 5 0 0 60 20000 15 37.5 0.3
  /\ cloud_ceiling 5 = 30
  /\ result (score_sunset 5 5 0 0 60 20000 15 37.5 0.3) = Ok 30.
Proof.
  assert (Hbase : 60 < base_score_value 5 5 0 0 60 20000 15 37.5 0.3).
  { unfold base_score_value, particle_score_value.
    rewrite aod_score_value_gaussian by lra.
    rewrite !gaussian_value_ideal.
    rewrite size_score_value_favorable by lra.
    rewrite visibility_score_value_far by lra.
    pose proof (cloud_score_value_pos 5 5 0 0). lra. }
  assert (Hceil : cloud_ceiling 5 = 30) by (apply cloud_ceiling_low; lra).
  split; [exact Hbase |]. split; [exact Hceil |].
  rewrite result_score_sunset
    by (apply small_no_overflow; unfold percent; lra).
  rewrite Hceil. f_equal.
  rewrite particle_ceiling_clean by lra.
  set (base := base_score_value 5 5 0 0 60 20000 15 37.5 0.3) in *.
  rewrite (Rmin_left 30 100) by lra.
  rewrite (Rmin_right base 30) by lra.
  rewrite (Rmin_right 100 30) by lra.
  apply Rmax_right. lra.
Qed.

(** C7: Scenario A is the first sample call of the source, whose comment
    reads "Should be ~75-85".  The call returns a score between 94.9 and
    95.3, above the interval [75, 85]. *)
Theorem scenario_A_returns_95 :
  exists final : R,
    result (score_sunset 50 10 30 40 65 15000 18 45 0.35) = Ok final
    /\ 94.9 < final < 95.3.
Proof.
  exists (base_score_value 50 10 30 40 65 15000 18 45 0.35).
  assert (Hbase : 94.9 < base_score_value 50 10 30 40 65 15000 18 45 0.35
                  < 95.3).
  { unfold base_score_value, cloud_score_value, particle_score_value.
    rewrite aod_score_value_gaussian by lra.
    rewrite gaussian_value_ideal.
    rewrite size_score_value_favorable by lra.
    rewrite visibility_score_value_far by lra.
    replace (- ((30 + 40) / 2 - 10) / 20) with (- (5 / 4)) by lra.
    pose proof exp_neg_5_4_bounds as He.
    pose proof (gaussian_value_between (18 - 15) 35 (9 / 2450)) as Hpm.
    pose proof (gaussian_value_between (0.35 - 0.3) 0.4 (1 / 128)) as Haod.
    pose proof (gaussian_value_between (65 - 60) 20 (1 / 32)) as Hhum.
    specialize (Hpm ltac:(lra) ltac:(lra)).
    specialize (Haod ltac:(lra) ltac:(lra)).
    specialize (Hhum ltac:(lra) ltac:(lra)).
    set (e := exp (- (5 / 4))) in *.
    assert (Hne : 1.0 + e <> 0) by lra.
    assert (Ht : 1.0 / (1.0 + e) * (1.0 + e) = 1).
    { unfold Rdiv. rewrite Rmult_assoc, Rinv_l by exact Hne. lra. }
    set (t := 1.0 / (1.0 + e)) in *.
    assert (Htb : 0.7692 < t < 0.7875) by nra.
    lra. }
  split; [| exact Hbase].
  rewrite result_score_sunset
    by (apply small_no_overflow; unfold percent; lra).
  f_equal.
  rewrite cloud_ceiling_high, particle_ceiling_clean by lra.
  apply clamp_id. lra.
Qed.

(** ** Upper bounds on the sub-scores *)

Lemma aod_score_value_le (aod : R) : aod_score_value aod <= 100.
Proof.
  unfold aod_score_value. destruct (Rlt_dec aod 0.05); [lra |].
  pose proof (gaussian_value_range (Rabs (aod - 0.3)) 0.4). lra.
Qed.

Lemma size_score_value_le (pm2_5 pm10 : R) :
  size_score_value pm2_5 pm10 <= 100.
Proof.
  unfold size_score_value. decide_order.
Qed.

Lemma visibility_score_value_le (visibility : R) :
  visibility_score_value visibility <= 100.
Proof.
  unfold visibility_score_value.
  destruct (Rlt_dec visibility 5000); [lra | apply Rmin_l].
Qed.

(** ** Instances *)

Lemma score_sunset_range_witness :
  valid_reading 50 10 30 40 65 15000 18 45 0.35
  /\ exists final : R,
       result (score_sunset 50 10 30 40 65 15000 18 45 0.35) = Ok final
       /\ 0 <= final <= 100.
Proof.
  assert (Hv : valid_reading 50 10 30 40 65 15000 18 45 0.35).
  { unfold valid_reading, percent. lra. }
  split; [exact Hv |].
  pose proof huge_ge as Hhuge.
  apply (proj1 (score_sunset_range 50 10 30 40 65 15000 18 45 0.35 Hv)); lra.
Defined.

Lemma cloud_ceiling_dominance_witness :
  valid_reading 5 5 0 0 60 20000 15 37.5 0.3
  /\ 5 < 10
  /\ exists final : R,
       result (score_sunset 5 5 0 0 60 20000 15 37.5 0.3) = Ok final
       /\ final <= 30.
Proof.
  assert (Hv : valid_reading 5 5 0 0 60 20000 15 37.5 0.3).
  { unfold valid_reading, percent. lra. }
  assert (Hc : 5 < 10) by lra.
  split; [exact Hv |]. split; [exact Hc |].
  pose proof huge_ge as Hhuge.
  apply (proj1 (cloud_ceiling_dominance 5 5 0 0 60 20000 15 37.5 0.3
                  Hv Hc)); lra.
Defined.

Lemma particle_ceiling_dominance_witness :
  valid_reading 0 0 0 0 30 3000 80 150 1.8
  /\ (80 > 75 \/ 1.8 > 1.5)
  /\ exists final : R,
       result (score_sunset 0 0 0 0 30 3000 80 150 1.8) = Ok final
       /\ final <= 40.
Proof.
  assert (Hv : valid_reading 0 0 0 0 30 3000 80 150 1.8).
  { unfold valid_reading, percent. lra. }
  assert (Hp : 80 > 75 \/ 1.8 > 1.5) by (left; lra).
  split; [exact Hv |]. split; [exact Hp |].
  pose proof huge_ge as Hhuge.
  apply (proj1 (particle_ceiling_dominance 0 0 0 0 30 3000 80 150 1.8
                  Hv Hp)); lra.
Defined.


Lemma visibility_score_not_monotone_witness :
  exists v s : R,
    0 <= v < 5000
    /\ result (visibility_score v) = Ok s
    /\ 100 - 1 < s < 100.
Proof.
  destruct visibility_score_not_monotone as (_ & _ & _ & Hnear & _).
  apply (Hnear 1). lra.
Defined.

Lemma align_first_match_or_last_witness :
  sample_day <> []
  /\ align 24 sample_day (sample_sunset 1 47) = 25%Z
  /\ align 24 sample_day (sample_sunset 18 5) = 26%Z.
Proof.
  assert (Hne : sample_day <> []) by discriminate.
  split; [exact Hne |]. split.
  - destruct (align_first_match_or_last 24 sample_day (sample_sunset 1 47) Hne)
      as (Hfirst & _).
    apply (Hfirst 1%nat). split.
    + eexists. split; reflexivity.
    + intros [| j] t Hj Ht; [| lia].
      injection Ht as <-. discriminate.
  - destruct (align_first_match_or_last 24 sample_day (sample_sunset 18 5) Hne)
      as (_ & Hlast & _).
    apply Hlast. repeat constructor; discriminate.
Defined.

(** ** More on [gaussian_score] *)

Lemma result_truediv_zero (x y : R) :
  y = 0 -> result (truediv x y) = Raise ZeroDivisionError.
Proof.
  intros Hy. unfold truediv, result. simpl.
  destruct (Req_dec_T y 0); [reflexivity | contradiction].
Qed.

Lemma nonzero_of_inverse_bound (sigma : R) : / huge <= Rabs sigma -> sigma <> 0.
Proof.
  intros H Hs. subst sigma. rewrite Rabs_R0 in H.
  pose proof huge_ge.
  assert (0 < / huge) by (apply Rinv_0_lt_compat; lra). lra.
Qed.

Lemma overflowing_square (x : R) :
  2 * 10 ^ 154 <= Rabs x -> float_overflow <= Rabs (x ^ 2).
Proof.
  intros H. rewrite <- RPow_abs.
  apply Rle_trans with ((2 * 10 ^ 154) ^ 2).
  - unfold float_overflow.
    rewrite !pow_IZR, <- mult_IZR, pow_IZR, <- minus_IZR.
    apply IZR_le. vm_compute. discriminate.
  - apply pow_incr. split; [| exact H].
    apply Rmult_le_pos; [lra | apply pow_le; lra].
Qed.

Lemma ten_154_ge : 1000 <= 10 ^ 154.
Proof. rewrite pow_IZR. apply IZR_le. vm_compute. discriminate. Qed.

Lemma gaussian_score_overflow (distance sigma : R) :
  2 * 10 ^ 154 <= Rabs distance ->
  result (gaussian_score distance sigma) = Raise OverflowError.
Proof.
  intros Hd. unfold gaussian_score.
  rewrite result_bind, float_pow_overflow by (apply overflowing_square, Hd).
  reflexivity.
Qed.

Lemma exp_le (x y : R) : x <= y -> exp x <= exp y.
Proof.
  intros [H | ->]; [left; apply exp_increasing, H | right; reflexivity].
Qed.

(** X1: the Gaussian factor is symmetric in the distance: the call with
    [- distance] returns the same value and evaluates the same division as
    the call with [distance], for every [sigma]. *)
Theorem gaussian_score_symmetric (distance sigma : R) :
  gaussian_score (- distance) sigma = gaussian_score distance sigma.
Proof.
  unfold gaussian_score, float_pow.
  replace ((- distance) ^ 2) with (distance ^ 2) by ring.
  reflexivity.
Qed.

(** X2: for a distance up to [10^100] and a [sigma] between [10^-100] and
    [10^100] in absolute value, the Gaussian factor is returned and lies in
    [0, 1]; at distance 0 it is 1. *)
Theorem gaussian_score_unit_interval (distance sigma : R) :
  Rabs distance <= huge -> / huge <= Rabs sigma <= huge ->
  exists g : R,
    result (gaussian_score distance sigma) = Ok g
    /\ 0 <= g <= 1
    /\ (distance = 0 -> g = 1).
Proof.
  intros Hd [Hlo Hhi].
  pose proof (nonzero_of_inverse_bound sigma Hlo) as Hs.
  exists (gaussian_value distance sigma).
  split; [apply result_gaussian_score; assumption |].
  pose proof (gaussian_value_range distance sigma Hs) as Hr.
  split; [lra |].
  intros ->. unfold gaussian_value.
  replace (- (0 ^ 2) / (2 * sigma ^ 2)) with 0 by (unfold Rdiv; ring).
  apply exp_0.
Qed.

(** X3: with [sigma = 0] and a distance up to [10^100], [gaussian_score]
    raises [ZeroDivisionError]; with a distance of [10^155] or more it
    raises [OverflowError] whatever [sigma] is, because the dividend is
    evaluated first. *)
Theorem gaussian_score_zero_sigma (distance sigma : R) :
  (Rabs distance <= huge -> sigma = 0 ->
   result (gaussian_score distance sigma) = Raise ZeroDivisionError)
  /\ (10 ^ 155 <= Rabs distance ->
      result (gaussian_score distance sigma) = Raise OverflowError).
Proof.
  split.
  - intros Hd ->. unfold gaussian_score.
    rewrite result_bind, result_float_pow
      by (apply square_below_overflow, Hd).
    rewrite result_bind, result_float_pow.
    + rewrite result_bind, result_truediv_zero by ring. reflexivity.
    + apply square_below_overflow. rewrite Rabs_R0.
      pose proof huge_ge. lra.
  - intros Hd. apply gaussian_score_overflow.
    change (10 ^ 155) with (10 * 10 ^ 154) in Hd.
    pose proof ten_154_ge. lra.
Qed.

(** X4: within the same bounds the Gaussian factor does not increase with
    the absolute distance: of two distances, the one farther from 0 gets a
    factor that is at most the other's. *)
Theorem gaussian_score_decreasing (d1 d2 sigma : R) :
  / huge <= Rabs sigma <= huge ->
  Rabs d1 <= Rabs d2 -> Rabs d2 <= huge ->
  exists g1 g2 : R,
    result (gaussian_score d1 sigma) = Ok g1
    /\ result (gaussian_score d2 sigma) = Ok g2
    /\ g2 <= g1.
Proof.
  intros [Hlo Hhi] Hd Hd2.
  pose proof (nonzero_of_inverse_bound sigma Hlo) as Hs.
  exists (gaussian_value d1 sigma), (gaussian_value d2 sigma).
  split; [apply result_gaussian_score; try assumption; lra |].
  split; [apply result_gaussian_score; assumption |].
  unfold gaussian_value. apply exp_le.
  assert (Hs2 : 0 < 2 * sigma ^ 2) by (simpl; nra).
  pose proof (Rinv_0_lt_compat _ Hs2) as Hi.
  assert (Hsq : d1 ^ 2 <= d2 ^ 2).
  { rewrite <- (pow2_abs d1), <- (pow2_abs d2).
    pose proof (Rabs_pos d1). simpl. nra. }
  unfold Rdiv. nra.
Qed.

(** ** More on the scorer *)



Lemma aod_score_value_pos (aod : R) : 0 < aod_score_value aod.
Proof.
  unfold aod_score_value. destruct (Rlt_dec aod 0.05); [lra |].
  pose proof (gaussian_value_range (Rabs (aod - 0.3)) 0.4). lra.
Qed.

Lemma visibility_score_value_nonneg (visibility : R) :
  0 <= visibility -> 0 <= visibility_score_value visibility.
Proof.
  intros Hv. unfold visibility_score_value.
  destruct (Rlt_dec visibility 5000); [lra |].
  apply Rmin_glb; lra.
Qed.

Lemma score_sunset_raises_overflow
  (cloud_cover cloud_low cloud_mid cloud_high
   humidity visibility pm2_5 pm10 aod : R) (e : exn) :
  result (score_sunset cloud_cover cloud_low cloud_mid cloud_high
            humidity visibility pm2_5 pm10 aod) = Raise e ->
  e = OverflowError.
Proof.
  intros H.
  destruct (score_sunset_cases cloud_cover cloud_low cloud_mid cloud_high
              humidity visibility pm2_5 pm10 aod) as [Hc | Hc];
    rewrite Hc in H; [injection H as <-; reflexivity | discriminate].
Qed.

Lemma score_sunset_returns_value
  (cloud_cover cloud_low cloud_mid cloud_high
   humidity visibility pm2_5 pm10 aod final : R) :
  result (score_sunset cloud_cover cloud_low cloud_mid cloud_high
            humidity visibility pm2_5 pm10 aod) = Ok final ->
  final = Rmax 0 (Rmin 100
            (Rmin (base_score_value cloud_cover cloud_low cloud_mid
                     cloud_high humidity visibility pm2_5 pm10 aod)
                  (Rmin (cloud_ceiling cloud_cover)
                        (particle_ceiling pm2_5 aod)))).
Proof.
  intros H.
  destruct (score_sunset_cases cloud_cover cloud_low cloud_mid cloud_high
              humidity visibility pm2_5 pm10 aod) as [Hc | Hc];
    rewrite Hc in H; [discriminate | injection H as <-; reflexivity].
Qed.




(** X9: the size sub-score is one of 100, 70 and 50, and it is 50 exactly
    when [pm2_5 <= 0].  For [pm2_5 > 0] it is 100 when [pm10] lies between
    2.001 and 3.499 times [pm2_5], and 70 when [pm10] is at most 1.999
    times or at least 3.501 times [pm2_5]. *)
Theorem size_score_cases (pm2_5 pm10 : R) :
  exists s : R,
    result (size_score pm2_5 pm10) = Ok s
    /\ (s = 100 \/ s = 70 \/ s = 50)
    /\ (s = 50 <-> pm2_5 <= 0)
    /\ (0 < pm2_5 -> 2.001 * pm2_5 <= pm10 <= 3.499 * pm2_5 -> s = 100)
    /\ (0 < pm2_5 ->
        pm10 <= 1.999 * pm2_5 \/ 3.501 * pm2_5 <= pm10 -> s = 70).
Proof.
  exists (size_score_value pm2_5 pm10).
  split; [apply result_size_score |].
  unfold size_score_value.
  destruct (Rlt_dec 0 pm2_5) as [Hp | Hp]; [| intuition lra].
  assert (Hi : 0 < / pm2_5) by (apply Rinv_0_lt_compat, Hp).
  assert (Hm : pm2_5 * / pm2_5 = 1) by (apply Rinv_r; lra).
  assert (Hq : pm10 = pm10 / pm2_5 * pm2_5).
  { unfold Rdiv. rewrite Rmult_assoc, (Rmult_comm (/ pm2_5)), Hm. ring. }
  set (q := pm10 / pm2_5) in *.
  assert (H2 : 2.0 <= q <-> 2 * pm2_5 <= pm10) by (split; intros; nra).
  assert (H3 : q <= 3.5 <-> pm10 <= 3.5 * pm2_5) by (split; intros; nra).
  destruct (Rle_dec 2.0 q) as [Ha | Ha];
    [destruct (Rle_dec q 3.5) as [Hb | Hb] |].
  - split; [tauto |]. split; [split; intros; lra |].
    split; [reflexivity |]. intros _ [Hc | Hc]; exfalso.
    + apply H2 in Ha. nra.
    + apply H3 in Hb. nra.
  - split; [tauto |]. split; [split; intros; lra |].
    split; [| reflexivity]. intros _ [_ Hc]. exfalso.
    apply Hb, H3. nra.
  - split; [tauto |]. split; [split; intros; lra |].
    split; [| reflexivity]. intros _ [Hc _]. exfalso.
    apply Ha, H2. nra.
Qed.

(** X10: for a non-negative visibility the visibility sub-score lies in
    [0, 100], and it is 100 exactly from 10000 m on. *)
Theorem visibility_score_saturates (visibility : R) :
  0 <= visibility ->
  exists s : R,
    result (visibility_score visibility) = Ok s
    /\ 0 <= s <= 100
    /\ (s = 100 <-> 10000 <= visibility).
Proof.
  intros Hv. exists (visibility_score_value visibility).
  split; [apply result_visibility_score |].
  split; [split; [apply visibility_score_value_nonneg, Hv
                 | apply visibility_score_value_le] |].
  unfold visibility_score_value.
  destruct (Rlt_dec visibility 5000); [split; intros; lra |].
  destruct (Rle_dec 10000 visibility).
  - rewrite Rmin_left by lra. split; intros; [assumption | reflexivity].
  - rewrite Rmin_right by lra. split; intros; lra.
Qed.

(** X11: for an [aod] within [10^100] of 0.3 the AOD sub-score is returned
    and lies in [0, 100]; it is the fixed 30 below 0.05, and it is 100 at
    [aod = 0.3]. *)
Theorem aod_score_peak (aod : R) :
  Rabs (aod - 0.3) <= huge ->
  exists s : R,
    result (aod_score aod) = Ok s
    /\ 0 <= s <= 100
    /\ (aod < 0.05 -> s = 30)
    /\ (aod = 0.3 -> s = 100).
Proof.
  intros Ha. exists (aod_score_value aod).
  split; [apply result_aod_score, Ha |].
  pose proof (aod_score_value_pos aod). pose proof (aod_score_value_le aod).
  split; [lra |].
  unfold aod_score_value.
  destruct (Rlt_dec aod 0.05) as [Hlow | Hlow].
  - split; [reflexivity | intros; lra].
  - split; [intros; lra |].
    intros ->. rewrite (gaussian_value_ideal 0.3 0.4). lra.
Qed.

(** X28: the scorer is not total on its stated domain: with [pm2_5] or
    [aod] at [10^155] or more, finite and non-negative as the domain asks,
    [score_sunset] raises [OverflowError] whatever the other readings
    are. *)
Theorem score_sunset_overflow
  (cloud_cover cloud_low cloud_mid cloud_high
   humidity visibility pm2_5 pm10 aod : R) :
  10 ^ 155 <= pm2_5 \/ 10 ^ 155 <= aod ->
  result (score_sunset cloud_cover cloud_low cloud_mid cloud_high
            humidity visibility pm2_5 pm10 aod) = Raise OverflowError.
Proof.
  intros Hbig.
  change (10 ^ 155) with (10 * 10 ^ 154) in Hbig.
  pose proof ten_154_ge as Hten.
  unfold score_sunset. rewrite result_bind.
  destruct (gaussian_score_cases (Rabs (cloud_cover - 50)) 20) as [-> | ->];
    try sigma_ok; [reflexivity |].
  rewrite result_bind, result_truediv by lra.
  rewrite result_bind, result_truediv by lra.
  rewrite result_bind.
  destruct (math_exp_cases
              (- ((cloud_mid + cloud_high) / 2 - cloud_low) / 20))
    as [-> | ->]; [reflexivity |].
  rewrite result_bind, result_truediv by apply one_plus_exp_nonzero.
  rewrite result_bind, result_truediv by lra.
  rewrite result_bind.
  destruct (Rle_dec (10 * 10 ^ 154) pm2_5) as [Hpm | Hpm].
  - rewrite gaussian_score_overflow; [reflexivity |].
    rewrite Rabs_Rabsolu, Rabs_pos_eq by lra. lra.
  - destruct Hbig as [Hbig | Haod]; [contradiction |].
    destruct (gaussian_score_cases (Rabs (pm2_5 - 15)) 35) as [-> | ->];
      try sigma_ok; [reflexivity |].
    rewrite result_bind. unfold aod_score.
    destruct (Rlt_dec aod 0.05); [lra |].
    rewrite result_bind, gaussian_score_overflow; [reflexivity |].
    rewrite Rabs_Rabsolu, Rabs_pos_eq by lra. lra.
Qed.

(** ** More on the rating lookup *)

Lemma getitem_ratings (i : Z) :
  result (getitem ratings i)
  = if ((-5 <=? i) && (i <? 5))%Z%bool
    then match nth_error ratings (Z.to_nat (i mod 5)) with
         | Some label => Ok label
         | None => Raise IndexError
         end
    else Raise IndexError.
Proof.
  unfold getitem, result. cbv zeta. cbn [snd].
  change (Z.of_nat (List.length ratings)) with 5%Z.
  destruct (Z.ltb_spec i 0) as [Hneg | Hpos].
  - destruct (Z.leb_spec (-5) i) as [Hlo | Hlo].
    + replace (i <? 5)%Z with true by (symmetry; apply Z.ltb_lt; lia).
      replace (0 <=? i + 5)%Z with true by (symmetry; apply Z.leb_le; lia).
      replace (i + 5 <? 5)%Z with true by (symmetry; apply Z.ltb_lt; lia).
      replace (i mod 5)%Z with (i + 5)%Z; [reflexivity |].
      apply (Z.mod_unique i 5 (-1) (i + 5)); lia.
    + replace (0 <=? i + 5)%Z with false; [reflexivity |].
      symmetry. apply Z.leb_gt. lia.
  - replace (-5 <=? i)%Z with true by (symmetry; apply Z.leb_le; lia).
    replace (0 <=? i)%Z with true by (symmetry; apply Z.leb_le; lia).
    destruct (Z.ltb_spec i 5) as [Hhi | Hhi]; [| reflexivity].
    rewrite Z.mod_small by lia. reflexivity.
Qed.

Lemma nth_error_ratings (j : Z) :
  (0 <= j < 5)%Z ->
  exists label : string,
    nth_error ratings (Z.to_nat j) = Some label /\ In label ratings.
Proof.
  intros Hj.
  assert (Hcases : j = 0%Z \/ j = 1%Z \/ j = 2%Z \/ j = 3%Z \/ j = 4%Z)
    by lia.
  destruct Hcases as [-> | [-> | [-> | [-> | ->]]]];
    eexists; (split; [reflexivity | simpl; tauto]).
Qed.

(** X12: the rating lookup raises [IndexError] exactly for the scores from
    100 upwards and for the scores below -100; every other score gets one of
    the five labels. *)
Theorem rating_index_error_iff (score : R) :
  (result (rating score) = Raise IndexError <-> score < -100 \/ 100 <= score)
  /\ (-100 <= score < 100 ->
      exists label : string,
        result (rating score) = Ok label /\ In label ratings).
Proof.
  rewrite result_rating, getitem_ratings.
  pose proof (Zfloor_bound (score / 20)) as Hb.
  set (k := Zfloor (score / 20)) in *.
  assert (Hlo : (-5 <= k)%Z <-> -100 <= score).
  { split; intros H.
    - apply IZR_le in H. lra.
    - apply (Zfloor_lub (-5)). lra. }
  assert (Hhi : (k < 5)%Z <-> score < 100).
  { split; intros H.
    - assert (H' : (k + 1 <= 5)%Z) by lia.
      apply IZR_le in H'. rewrite plus_IZR in H'. lra.
    - apply lt_IZR. lra. }
  destruct (Z.leb_spec (-5) k) as [H1 | H1];
    destruct (Z.ltb_spec k 5) as [H2 | H2]; cbn [andb].
  - destruct (nth_error_ratings (k mod 5)) as (label & Hnth & Hin).
    { apply Z.mod_pos_bound. lia. }
    rewrite Hnth. split.
    + split; [discriminate |]. intros [H | H]; [| apply Hhi in H2]; try lra.
      apply Hlo in H1. lra.
    + intros _. exists label. split; [reflexivity | exact Hin].
  - split.
    + split; [| reflexivity]. intros _. right.
      destruct (Rlt_dec score 100) as [Hc | Hc]; [| lra].
      apply Hhi in Hc. lia.
    + intros [_ Hc]. apply Hhi in Hc. lia.
  - split.
    + split; [| reflexivity]. intros _. left.
      destruct (Rle_dec (-100) score) as [Hc | Hc]; [| lra].
      apply Hlo in Hc. lia.
    + intros [Hc _]. apply Hlo in Hc. lia.
  - lia.
Qed.

(** X13: the buckets.  For [k] from 0 to 4, every score in
    [20 k, 20 k + 20) gets the [k]-th label, in the order Poor, Fair, Good,
    Great, Amazing. *)
Theorem rating_bucket (score : R) (k : nat) :
  (k < 5)%nat -> 20 * INR k <= score < 20 * INR k + 20 ->
  result (rating score) = Ok (nth k ratings ""%string).
Proof.
  intros Hk Hs. rewrite result_rating.
  rewrite INR_IZR_INZ in Hs.
  rewrite (Zfloor_div20 score (Z.of_nat k) Hs).
  assert (Hcases : (k = 0 \/ k = 1 \/ k = 2 \/ k = 3 \/ k = 4)%nat) by lia.
  destruct Hcases as [-> | [-> | [-> | [-> | ->]]]]; reflexivity.
Qed.

(** X14: a negative score down to -100 is looked up from the end of the
    list: it gets the label of that score plus 100, so a score in [-20, 0)
    is rated "Amazing". *)
Theorem rating_negative_wraps (score : R) :
  -100 <= score < 0 ->
  result (rating score) = result (rating (score + 100))
  /\ (-20 <= score -> result (rating score) = Ok "Amazing"%string).
Proof.
  intros Hs.
  assert (Hwrap : result (rating score) = result (rating (score + 100))).
  { rewrite !result_rating, !getitem_ratings.
    replace ((score + 100) / 20) with (score / 20 + IZR 5) by lra.
    rewrite Zfloor_addz.
    pose proof (Zfloor_bound (score / 20)) as Hb.
    set (k := Zfloor (score / 20)) in *.
    assert (Hk : (-5 <= k < 0)%Z).
    { split; [apply (Zfloor_lub (-5)); lra | apply lt_IZR; lra]. }
    replace (-5 <=? k)%Z with true by (symmetry; apply Z.leb_le; lia).
    replace (k <? 5)%Z with true by (symmetry; apply Z.ltb_lt; lia).
    replace (-5 <=? k + 5)%Z with true by (symmetry; apply Z.leb_le; lia).
    replace (k + 5 <? 5)%Z with true by (symmetry; apply Z.ltb_lt; lia).
    replace ((k + 5) mod 5)%Z with (k mod 5)%Z; [reflexivity |].
    rewrite <- (Z.mod_add k 1 5) by lia. f_equal. }
  split; [exact Hwrap |].
  intros Hs'. rewrite Hwrap, result_rating.
  rewrite (Zfloor_div20 (score + 100) 4) by lra. reflexivity.
Qed.

(** ** The sunset hour in weather.py and in timeline.py *)

Lemma next_index_scan (day_start_idx h : Z) (ts : list datetime) :
  forall i : nat,
    match Weather.next_index h i ts with
    | Weather.Next k =>
        scan day_start_idx h i ts = Some (day_start_idx + Z.of_nat k)%Z
    | Weather.StopIteration => scan day_start_idx h i ts = None
    end.
Proof.
  induction ts as [| t rest IH]; intros i; simpl.
  - reflexivity.
  - destruct (hour t =? h)%Z; [reflexivity | apply IH].
Qed.

Lemma next_index_first_match (h : Z) (ts : list datetime) :
  forall i : nat,
    match Weather.next_index h i ts with
    | Weather.Next k => exists j : nat, k = (i + j)%nat /\ first_match h ts j
    | Weather.StopIteration => Forall (fun t => hour t <> h) ts
    end.
Proof.
  intros i. pose proof (next_index_scan 0 h ts i) as Hscan.
  destruct (Weather.next_index h i ts) as [k |].
  - destruct (scan_some _ _ _ _ _ Hscan) as (j & Hj & Heq).
    exists j. split; [lia | exact Hj].
  - exact (scan_none _ _ _ _ Hscan).
Qed.

(** X15: weather.py finds the position of the first hourly entry whose hour
    is the sunset hour, and raises [StopIteration] exactly when no entry has
    that hour (in particular on an empty list). *)
Theorem weather_sunset_index_first_match
  (hourly_times : list datetime) (sunset_time : datetime) :
  (forall k : nat,
      Weather.sunset_index hourly_times sunset_time = Weather.Next k
      <-> first_match (hour sunset_time) hourly_times k)
  /\ (Weather.sunset_index hourly_times sunset_time = Weather.StopIteration
      <-> Forall (fun t => hour t <> hour sunset_time) hourly_times).
Proof.
  unfold Weather.sunset_index.
  pose proof (next_index_first_match (hour sunset_time) hourly_times 0)
    as Hnext.
  destruct (Weather.next_index (hour sunset_time) 0 hourly_times) as [k |].
  - destruct Hnext as (j & -> & Hj). simpl. split.
    + intros k. split.
      * intros [= <-]. exact Hj.
      * intros Hk. f_equal. exact (first_match_unique _ _ _ _ Hj Hk).
    + split; [discriminate |]. intros Hall. exfalso.
      exact (first_match_not_all_differ _ _ _ Hj Hall).
  - split.
    + intros k. split; [discriminate |]. intros Hk. exfalso.
      exact (first_match_not_all_differ _ _ _ Hk Hnext).
    + split; [intros _; exact Hnext | reflexivity].
Qed.

(** X16: on one day of hourly entries (at most 24, at least one) the two
    programs agree whenever weather.py finds an index, and where weather.py
    raises [StopIteration] timeline.py falls back to the last entry. *)
Theorem timeline_extends_weather
  (hourly_times : list datetime) (sunset_time : datetime) :
  hourly_times <> [] -> (List.length hourly_times <= 24)%nat ->
  match Weather.sunset_index hourly_times sunset_time with
  | Weather.Next k =>
      sunset_index hourly_times 0 sunset_time = Z.of_nat k
  | Weather.StopIteration =>
      sunset_index hourly_times 0 sunset_time
      = (Z.of_nat (List.length hourly_times) - 1)%Z
  end.
Proof.
  intros Hne Hlen. unfold sunset_index, slice, Weather.sunset_index, align.
  cbn [Nat.mul Nat.add skipn].
  replace (24 - 0)%nat with 24%nat by lia.
  rewrite firstn_all2 by exact Hlen.
  pose proof (next_index_scan 0 (hour sunset_time) hourly_times 0) as Hscan.
  change (Z.of_nat 0) with 0%Z.
  destruct (Weather.next_index (hour sunset_time) 0 hourly_times) as [k |];
    rewrite Hscan; lia.
Qed.

(** X17: when the hourly timestamps end before day [day_idx] begins, the
    day's slice is empty and the index chosen for the day is
    [24 * day_idx - 1], the entry just before the day; for day 0 this is
    -1. *)
Theorem sunset_index_empty_day
  (hourly_times : list datetime) (day_idx : nat) (sunset_time : datetime) :
  (List.length hourly_times <= 24 * day_idx)%nat ->
  sunset_index hourly_times day_idx sunset_time
  = (24 * Z.of_nat day_idx - 1)%Z.
Proof.
  intros Hlen. unfold sunset_index, slice.
  rewrite skipn_all2 by lia. rewrite firstn_nil.
  unfold align. cbn [scan List.length]. lia.
Qed.

(** X18: when day [day_idx] has at least one hourly timestamp, the index
    chosen lies in the day's window and inside the hourly series; the entry
    it selects has the sunset hour, unless no entry of the day has that
    hour, and then it is the day's last entry. *)
Theorem sunset_index_selects_sunset_hour
  (hourly_times : list datetime) (day_idx : nat) (sunset_time : datetime) :
  (24 * day_idx < List.length hourly_times)%nat ->
  let i := sunset_index hourly_times day_idx sunset_time in
  let day_end := Z.min (24 * Z.of_nat day_idx + 24)
                   (Z.of_nat (List.length hourly_times)) in
  (24 * Z.of_nat day_idx <= i < day_end)%Z
  /\ ((exists t : datetime,
         nth_error hourly_times (Z.to_nat i) = Some t
         /\ hour t = hour sunset_time)
      \/ (i = day_end - 1)%Z
         /\ forall (j : nat) (t : datetime),
              (24 * Z.of_nat day_idx <= Z.of_nat j < day_end)%Z ->
              nth_error hourly_times j = Some t ->
              hour t <> hour sunset_time).
Proof.
  intros Hlen i day_end. subst i. unfold sunset_index.
  set (start := (day_idx * 24)%nat).
  set (ts := slice hourly_times start (start + 24)).
  assert (Hts : List.length ts = Nat.min 24 (List.length hourly_times - start)).
  { subst ts. unfold slice. rewrite length_firstn, length_skipn.
    replace (start + 24 - start)%nat with 24%nat by lia. reflexivity. }
  assert (Hnth : forall j, (j < List.length ts)%nat ->
                           nth_error ts j = nth_error hourly_times (start + j)).
  { intros j Hj. subst ts. unfold slice.
    rewrite nth_error_firstn.
    replace (start + 24 - start)%nat with 24%nat by lia.
    destruct (Nat.ltb_spec j 24) as [_ | Hc]; [| lia].
    apply nth_error_skipn. }
  assert (Hend : day_end = (Z.of_nat start + Z.of_nat (List.length ts))%Z).
  { subst day_end start. rewrite Hts. lia. }
  unfold align.
  destruct (scan (Z.of_nat start) (hour sunset_time) 0 ts) as [r |] eqn:Hscan.
  - destruct (scan_some _ _ _ _ _ Hscan) as (k & Hk & ->).
    pose proof (first_match_lt _ _ _ Hk) as Hklt.
    destruct Hk as [[t [Ht Hh]] _]. cbn [Nat.add].
    split; [subst start; lia |].
    left. exists t. split; [| exact Hh].
    rewrite <- Nat2Z.inj_add, Nat2Z.id, <- Hnth by exact Hklt. exact Ht.
  - pose proof (scan_none _ _ _ _ Hscan) as Hall.
    split; [subst start; lia |].
    right. split; [lia |].
    intros j t Hj Hjt.
    rewrite Forall_forall in Hall. apply Hall.
    apply (nth_error_In ts (j - start)).
    rewrite Hnth by lia.
    replace (start + (j - start))%nat with j by (subst start; lia).
    exact Hjt.
Qed.

(** ** Monad laws *)

Lemma bind_ret_l {A B : Type} (a : A) (f : A -> Py B) :
  bind (ret a) f = f a.
Proof. unfold bind, ret. destruct (f a). reflexivity. Qed.

Lemma bind_assoc {A B C : Type} (m : Py A) (f : A -> Py B) (g : B -> Py C) :
  bind (bind m f) g = bind m (fun a => bind (f a) g).
Proof.
  destruct m as [l [a | e]]; simpl; [| reflexivity].
  destruct (f a) as [l' [b | e]]; simpl; [| reflexivity].
  destruct (g b) as [l'' r]. rewrite app_assoc. reflexivity.
Qed.

Lemma bind_ext {A B : Type} (m : Py A) (f g : A -> Py B) :
  (forall a : A, f a = g a) -> bind m f = bind m g.
Proof.
  intros H. destruct m as [l [a | e]]; simpl; [| reflexivity].
  rewrite H. reflexivity.
Qed.

Lemma result_bind_ok_inv {A B : Type} (m : Py A) (f : A -> Py B) (b : B) :
  result (bind m f) = Ok b ->
  exists a : A, result m = Ok a /\ result (f a) = Ok b.
Proof.
  rewrite result_bind. destruct (result m) as [a | e]; [| discriminate].
  intros H. exists a. split; [reflexivity | exact H].
Qed.

Lemma result_bind_raise_inv {A B : Type} (m : Py A) (f : A -> Py B)
  (e : exn) :
  result (bind m f) = Raise e ->
  result m = Raise e \/ exists a : A, result m = Ok a /\ result (f a) = Raise e.
Proof.
  rewrite result_bind. destruct (result m) as [a | e'].
  - intros H. right. exists a. split; [reflexivity | exact H].
  - intros [= ->]. left. reflexivity.
Qed.

(** ** Reading the hourly series *)

Lemma getitem_in_range {A : Type} (l : list A) (i : Z) :
  (0 <= i < Z.of_nat (List.length l))%Z ->
  exists a : A,
    result (getitem l i) = Ok a /\ nth_error l (Z.to_nat i) = Some a.
Proof.
  intros Hi. unfold getitem, result. cbv zeta. cbn [snd].
  replace (i <? 0)%Z with false by (symmetry; apply Z.ltb_ge; lia).
  replace (0 <=? i)%Z with true by (symmetry; apply Z.leb_le; lia).
  replace (i <? Z.of_nat (List.length l))%Z with true
    by (symmetry; apply Z.ltb_lt; lia).
  cbn [andb].
  destruct (nth_error l (Z.to_nat i)) as [a |] eqn:Hnth.
  - exists a. split; reflexivity.
  - apply nth_error_None in Hnth. lia.
Qed.

Lemma getitem_not_zero_division {A : Type} (l : list A) (i : Z) :
  result (getitem l i) <> Raise ZeroDivisionError.
Proof.
  unfold getitem, result. cbv zeta. cbn [snd].
  destruct (_ && _)%bool; [| discriminate].
  destruct (nth_error l _); discriminate.
Qed.

Lemma reading_in_range (series : list (option R)) (i : Z) :
  (0 <= i < Z.of_nat (List.length series))%Z ->
  exists x : option R,
    nth_error series (Z.to_nat i) = Some x
    /\ result (reading series i) = Ok (or_0 x).
Proof.
  intros Hi. destruct (getitem_in_range series i Hi) as (x & Hget & Hnth).
  exists x. split; [exact Hnth |].
  unfold reading. rewrite result_bind, Hget. reflexivity.
Qed.

Lemma getitem_raises_index_error {A : Type} (l : list A) (i : Z) (e : exn) :
  result (getitem l i) = Raise e -> e = IndexError.
Proof.
  unfold getitem, result. cbv zeta. cbn [snd].
  destruct (_ && _)%bool; [| intros [= <-]; reflexivity].
  destruct (nth_error l _); [discriminate | intros [= <-]; reflexivity].
Qed.

Lemma getitem_ok_in {A : Type} (l : list A) (i : Z) (a : A) :
  result (getitem l i) = Ok a -> In a l.
Proof.
  unfold getitem, result. cbv zeta. cbn [snd].
  destruct (_ && _)%bool; [| discriminate].
  destruct (nth_error l _) as [a' |] eqn:Hnth; [| discriminate].
  intros [= <-]. exact (nth_error_In _ _ Hnth).
Qed.

(** A read either raises [IndexError] or returns [x or 0] for an entry
    [x] of the series. *)
Lemma reading_cases (series : list (option R)) (i : Z) :
  result (reading series i) = Raise IndexError
  \/ exists x : option R,
       In x series /\ result (reading series i) = Ok (or_0 x).
Proof.
  unfold reading. rewrite result_bind.
  destruct (result (getitem series i)) as [x | e] eqn:Hget.
  - right. exists x. split; [exact (getitem_ok_in _ _ _ Hget) | reflexivity].
  - left. f_equal. exact (getitem_raises_index_error _ _ _ Hget).
Qed.

Lemma reading_not_zero_division (series : list (option R)) (i : Z) :
  result (reading series i) <> Raise ZeroDivisionError.
Proof.
  unfold reading. rewrite result_bind.
  pose proof (getitem_not_zero_division series i) as H.
  destruct (result (getitem series i)) as [x | e]; [discriminate |].
  intros [= ->]. apply H. reflexivity.
Qed.

(** ** One day of the timeline *)

Ltac invert_binds H :=
  repeat (apply result_bind_ok_inv in H;
          let a := fresh "a" in
          let Ha := fresh "Ha" in
          destruct H as (a & Ha & H)).

Lemma timeline_entry_ok_inv (weather_data : weather_response)
  (air_quality_data : air_quality_response) (today : date)
  (day_idx : nat) (sunset_time : datetime) (r : timeline_result) :
  result (timeline_entry weather_data air_quality_data today
            day_idx sunset_time) = Ok r ->
  result_sunset_time r = sunset_time
  /\ result_date r = date_of sunset_time
  /\ result_data_type r = data_type (date_of sunset_time) today
  /\ read_at weather_data air_quality_data
       (sunset_index (hourly_time weather_data) day_idx sunset_time)
       (result_factors r)
  /\ result (score_of_factors (result_factors r)) = Ok (result_score r).
Proof.
  intros H. unfold timeline_entry in H. cbv zeta in H.
  invert_binds H.
  rewrite result_ret in H. injection H as <-.
  cbn [result_sunset_time result_date result_data_type result_factors
       result_score].
  repeat split; try assumption.
  unfold read_at, all_series, factor_values. cbn.
  repeat constructor; assumption.
Qed.

(** The values read for one day when every series is long enough and in
    its domain. *)
Lemma reading_in_domain (P : R -> Prop) (series : list (option R)) (i : Z) :
  (0 <= i < Z.of_nat (List.length series))%Z ->
  Forall (fun x => P (or_0 x)) series ->
  exists v : R, result (reading series i) = Ok v /\ P v.
Proof.
  intros Hi Hall.
  destruct (reading_in_range series i Hi) as (x & Hnth & Hres).
  exists (or_0 x). split; [exact Hres |].
  rewrite Forall_forall in Hall. apply Hall.
  exact (nth_error_In _ _ Hnth).
Qed.

Lemma timeline_entry_ok (weather_data : weather_response)
  (air_quality_data : air_quality_response) (today : date)
  (day_idx : nat) (sunset_time : datetime) :
  series_cover_times weather_data air_quality_data ->
  series_in_domain weather_data air_quality_data ->
  (24 * day_idx < List.length (hourly_time weather_data))%nat ->
  exists r : timeline_result,
    result (timeline_entry weather_data air_quality_data today
              day_idx sunset_time) = Ok r.
Proof.
  intros Hcover Hdomain Hday.
  assert (Hi : (0 <= sunset_index (hourly_time weather_data) day_idx
                       sunset_time
                < Z.of_nat (List.length (hourly_time weather_data)))%Z).
  { apply sunset_index_in_range. intros Hnil.
    apply (f_equal (@List.length datetime)) in Hnil.
    unfold slice in Hnil.
    rewrite length_firstn, length_skipn in Hnil. simpl in Hnil. lia. }
  unfold series_cover_times, all_series in Hcover.
  unfold timeline_entry. cbv zeta.
  set (i := sunset_index (hourly_time weather_data) day_idx sunset_time) in *.
  repeat (apply Forall_cons_iff in Hcover;
          let L := fresh "L" in destruct Hcover as [L Hcover]).
  destruct Hdomain as [Hpercent Hparticles].
  repeat (apply Forall_cons_iff in Hpercent;
          let D := fresh "D" in destruct Hpercent as [D Hpercent]).
  repeat (apply Forall_cons_iff in Hparticles;
          let E := fresh "E" in destruct Hparticles as [E Hparticles]).
  assert (Hany : forall series : list (option R),
             Forall (fun x => (fun _ : R => True) (or_0 x)) series).
  { intros series. apply Forall_forall. intros; exact I. }
  destruct (reading_in_domain percent (hourly_cloud_cover weather_data) i)
    as (v1 & E1 & P1); [lia | assumption |].
  destruct (reading_in_domain percent
              (hourly_cloud_cover_low weather_data) i)
    as (v2 & E2 & P2); [lia | assumption |].
  destruct (reading_in_domain percent
              (hourly_cloud_cover_mid weather_data) i)
    as (v3 & E3 & P3); [lia | assumption |].
  destruct (reading_in_domain percent
              (hourly_cloud_cover_high weather_data) i)
    as (v4 & E4 & P4); [lia | assumption |].
  destruct (reading_in_domain percent
              (hourly_relative_humidity_2m weather_data) i)
    as (v5 & E5 & P5); [lia | assumption |].
  destruct (reading_in_domain (fun _ => True)
              (hourly_visibility weather_data) i)
    as (v6 & E6 & _); [lia | apply Hany |].
  destruct (reading_in_domain (fun _ => True)
              (hourly_vapour_pressure_deficit weather_data) i)
    as (v7 & E7 & _); [lia | apply Hany |].
  destruct (reading_in_domain (fun v => 0 <= v <= huge)
              (hourly_pm2_5 air_quality_data) i)
    as (v8 & E8 & P8); [lia | assumption |].
  destruct (reading_in_domain (fun _ => True)
              (hourly_pm10 air_quality_data) i)
    as (v9 & E9 & _); [lia | apply Hany |].
  destruct (reading_in_domain (fun v => 0 <= v <= huge)
              (hourly_aerosol_optical_depth air_quality_data) i)
    as (v10 & E10 & P10); [lia | assumption |].
  eexists.
  rewrite result_bind, E1, result_bind, E2, result_bind, E3, result_bind, E4,
    result_bind, E5, result_bind, E6, result_bind, E7, result_bind, E8,
    result_bind, E9, result_bind, E10.
  rewrite result_bind, result_score_sunset
    by (apply domain_no_overflow; assumption).
  reflexivity.
Qed.

Lemma timeline_entry_not_zero_division (weather_data : weather_response)
  (air_quality_data : air_quality_response) (today : date)
  (day_idx : nat) (sunset_time : datetime) :
  result (timeline_entry weather_data air_quality_data today
            day_idx sunset_time) <> Raise ZeroDivisionError.
Proof.
  intros H. unfold timeline_entry in H. cbv zeta in H.
  repeat (apply result_bind_raise_inv in H;
          destruct H as [H | (? & _ & H)];
          [exact (reading_not_zero_division _ _ H) |]).
  apply result_bind_raise_inv in H. destruct H as [H | (? & _ & H)].
  - apply score_sunset_raises_overflow in H. discriminate.
  - discriminate.
Qed.

(** With every series in its domain a day raises nothing but
    [IndexError]. *)
Lemma timeline_entry_raises_index_error (weather_data : weather_response)
  (air_quality_data : air_quality_response) (today : date)
  (day_idx : nat) (sunset_time : datetime) (e : exn) :
  series_in_domain weather_data air_quality_data ->
  result (timeline_entry weather_data air_quality_data today
            day_idx sunset_time) = Raise e ->
  e = IndexError.
Proof.
  intros [Hpercent Hparticles] H.
  repeat (apply Forall_cons_iff in Hpercent;
          let D := fresh "D" in destruct Hpercent as [D Hpercent]).
  repeat (apply Forall_cons_iff in Hparticles;
          let E := fresh "E" in destruct Hparticles as [E Hparticles]).
  rewrite Forall_forall in D, D0, D1, D2, D3, E, E0.
  unfold timeline_entry in H. cbv zeta in H.
  set (i := sunset_index (hourly_time weather_data) day_idx sunset_time) in *.
  rewrite result_bind in H.
  destruct (reading_cases (hourly_cloud_cover weather_data) i)
    as [R1 | (x1 & I1 & R1)]; rewrite R1 in H; [congruence |].
  rewrite result_bind in H.
  destruct (reading_cases (hourly_cloud_cover_low weather_data) i)
    as [R2 | (x2 & I2 & R2)]; rewrite R2 in H; [congruence |].
  rewrite result_bind in H.
  destruct (reading_cases (hourly_cloud_cover_mid weather_data) i)
    as [R3 | (x3 & I3 & R3)]; rewrite R3 in H; [congruence |].
  rewrite result_bind in H.
  destruct (reading_cases (hourly_cloud_cover_high weather_data) i)
    as [R4 | (x4 & I4 & R4)]; rewrite R4 in H; [congruence |].
  rewrite result_bind in H.
  destruct (reading_cases (hourly_relative_humidity_2m weather_data) i)
    as [R5 | (x5 & I5 & R5)]; rewrite R5 in H; [congruence |].
  rewrite result_bind in H.
  destruct (reading_cases (hourly_visibility weather_data) i)
    as [R6 | (x6 & I6 & R6)]; rewrite R6 in H; [congruence |].
  rewrite result_bind in H.
  destruct (reading_cases (hourly_vapour_pressure_deficit weather_data) i)
    as [R7 | (x7 & I7 & R7)]; rewrite R7 in H; [congruence |].
  rewrite result_bind in H.
  destruct (reading_cases (hourly_pm2_5 air_quality_data) i)
    as [R8 | (x8 & I8 & R8)]; rewrite R8 in H; [congruence |].
  rewrite result_bind in H.
  destruct (reading_cases (hourly_pm10 air_quality_data) i)
    as [R9 | (x9 & I9 & R9)]; rewrite R9 in H; [congruence |].
  rewrite result_bind in H.
  destruct (reading_cases (hourly_aerosol_optical_depth air_quality_data) i)
    as [R10 | (x10 & I10 & R10)]; rewrite R10 in H; [congruence |].
  rewrite result_bind, result_score_sunset in H; [discriminate |].
  apply domain_no_overflow; auto.
Qed.

Lemma timeline_entry_retag (weather_data : weather_response)
  (air_quality_data : air_quality_response) (today today' : date)
  (day_idx : nat) (sunset_time : datetime) :
  timeline_entry weather_data air_quality_data today' day_idx sunset_time
  = (r <- timeline_entry weather_data air_quality_data today
            day_idx sunset_time ;;
     ret (retag today' r)).
Proof.
  unfold timeline_entry. cbv zeta.
  repeat (rewrite bind_assoc; apply bind_ext; intro).
  rewrite bind_ret_l. reflexivity.
Qed.

(** ** The whole timeline *)

Section Timeline.

Variables (weather_data : weather_response)
  (air_quality_data : air_quality_response).

Lemma timeline_loop_ok_inv (today : date) (sunset_times : list datetime) :
  forall (day_idx : nat) (timeline_results : list timeline_result),
    result (timeline_loop weather_data air_quality_data today
              day_idx sunset_times) = Ok timeline_results ->
    List.length timeline_results = List.length sunset_times
    /\ forall (k : nat) (sunset_time : datetime),
         nth_error sunset_times k = Some sunset_time ->
         exists r : timeline_result,
           nth_error timeline_results k = Some r
           /\ result (timeline_entry weather_data air_quality_data today
                        (day_idx + k) sunset_time) = Ok r.
Proof.
  induction sunset_times as [| s rest IH]; intros day_idx rs H; simpl in H.
  - injection H as <-. split; [reflexivity |].
    intros [| k] t Ht; discriminate.
  - apply result_bind_ok_inv in H. destruct H as (entry & Hentry & H).
    apply result_bind_ok_inv in H. destruct H as (rs' & Hrest & H).
    rewrite result_ret in H. injection H as <-.
    destruct (IH _ _ Hrest) as [Hlen Hnth].
    split; [simpl; f_equal; exact Hlen |].
    intros [| k] t Ht; simpl in Ht.
    + injection Ht as <-. exists entry. rewrite Nat.add_0_r.
      split; [reflexivity | exact Hentry].
    + destruct (Hnth k t Ht) as (r & Hr & Hres).
      exists r. split; [exact Hr |].
      replace (day_idx + S k)%nat with (S day_idx + k)%nat by lia.
      exact Hres.
Qed.

Lemma timeline_loop_ok (today : date) (sunset_times : list datetime) :
  series_cover_times weather_data air_quality_data ->
  series_in_domain weather_data air_quality_data ->
  forall day_idx : nat,
    (forall k : nat,
        (k < List.length sunset_times)%nat ->
        (24 * (day_idx + k) < List.length (hourly_time weather_data))%nat) ->
    exists timeline_results : list timeline_result,
      result (timeline_loop weather_data air_quality_data today
                day_idx sunset_times) = Ok timeline_results.
Proof.
  intros Hcover Hdomain.
  induction sunset_times as [| s rest IH]; intros day_idx Hdays; simpl.
  - eexists. reflexivity.
  - destruct (timeline_entry_ok weather_data air_quality_data today
                day_idx s Hcover Hdomain) as [entry Hentry].
    { specialize (Hdays 0%nat). rewrite Nat.add_0_r in Hdays.
      apply Hdays. simpl. lia. }
    destruct (IH (S day_idx)) as [rs Hrs].
    { intros k Hk.
      replace (S day_idx + k)%nat with (day_idx + S k)%nat by lia.
      apply Hdays. simpl. lia. }
    eexists. rewrite result_bind, Hentry, result_bind, Hrs. reflexivity.
Qed.

Lemma timeline_loop_not_zero_division (today : date)
  (sunset_times : list datetime) :
  forall day_idx : nat,
    result (timeline_loop weather_data air_quality_data today
              day_idx sunset_times) <> Raise ZeroDivisionError.
Proof.
  induction sunset_times as [| s rest IH]; intros day_idx H; simpl in H.
  - discriminate.
  - apply result_bind_raise_inv in H. destruct H as [H | (entry & _ & H)].
    + exact (timeline_entry_not_zero_division _ _ _ _ _ H).
    + apply result_bind_raise_inv in H. destruct H as [H | (rs & _ & H)].
      * exact (IH _ H).
      * discriminate.
Qed.

Lemma timeline_loop_raises_index_error (today : date)
  (sunset_times : list datetime) (e : exn) :
  series_in_domain weather_data air_quality_data ->
  forall day_idx : nat,
    result (timeline_loop weather_data air_quality_data today
              day_idx sunset_times) = Raise e ->
    e = IndexError.
Proof.
  intros Hdomain.
  induction sunset_times as [| s rest IH]; intros day_idx H; simpl in H.
  - discriminate.
  - apply result_bind_raise_inv in H. destruct H as [H | (entry & _ & H)].
    + exact (timeline_entry_raises_index_error _ _ _ _ _ _ Hdomain H).
    + apply result_bind_raise_inv in H. destruct H as [H | (rs & _ & H)].
      * exact (IH _ H).
      * discriminate.
Qed.

Lemma timeline_loop_retag (today today' : date)
  (sunset_times : list datetime) :
  forall day_idx : nat,
    timeline_loop weather_data air_quality_data today' day_idx sunset_times
    = (timeline_results <-
         timeline_loop weather_data air_quality_data today
           day_idx sunset_times ;;
       ret (map (retag today') timeline_results)).
Proof.
  induction sunset_times as [| s rest IH]; intros day_idx;
    cbn [timeline_loop].
  - rewrite bind_ret_l. reflexivity.
  - rewrite (timeline_entry_retag _ _ today today'), IH.
    rewrite !bind_assoc. apply bind_ext. intros entry.
    rewrite bind_ret_l, !bind_assoc. apply bind_ext. intros rs.
    rewrite !bind_ret_l. reflexivity.
Qed.

End Timeline.

Lemma score_of_factors_range (f : factors) (score : R) :
  result (score_of_factors f) = Ok score -> 0 <= score <= 100.
Proof.
  unfold score_of_factors. intros H.
  rewrite (score_sunset_returns_value _ _ _ _ _ _ _ _ _ _ H).
  apply clamp_range.
Qed.

(** X19: when every hourly series has an entry for each hourly timestamp,
    every entry is null or in its domain (0 to 100 for the cloud and
    humidity series, 0 to [10^100] for PM2.5 and AOD) and every day of the
    daily sunsets has at least one hourly timestamp,
    [calculate_sunset_scores] returns one result per day. *)
Theorem calculate_sunset_scores_returns
  (weather_data : weather_response)
  (air_quality_data : air_quality_response) (today : date) :
  series_cover_times weather_data air_quality_data ->
  series_in_domain weather_data air_quality_data ->
  (forall day_idx : nat,
      (day_idx < List.length (daily_sunset weather_data))%nat ->
      (24 * day_idx < List.length (hourly_time weather_data))%nat) ->
  exists timeline_results : list timeline_result,
    result (calculate_sunset_scores weather_data air_quality_data today)
    = Ok timeline_results
    /\ List.length timeline_results
       = List.length (daily_sunset weather_data).
Proof.
  intros Hcover Hdomain Hdays. unfold calculate_sunset_scores.
  destruct (timeline_loop_ok weather_data air_quality_data today
              (daily_sunset weather_data) Hcover Hdomain 0%nat) as [rs Hrs].
  { intros k Hk. apply Hdays, Hk. }
  exists rs. split; [exact Hrs |].
  exact (proj1 (timeline_loop_ok_inv _ _ _ _ _ _ Hrs)).
Qed.

(** X20: what a returned timeline holds.  There is one result per daily
    sunset, in order; the result of day [day_idx] carries that day's sunset
    time and date, its ten values are the entries of the ten hourly series
    at the index the aligner chose for the day (null read as 0), and its
    score is what [score_sunset] returns for those values, a number in
    [0, 100]. *)
Theorem calculate_sunset_scores_results
  (weather_data : weather_response)
  (air_quality_data : air_quality_response) (today : date)
  (timeline_results : list timeline_result) :
  result (calculate_sunset_scores weather_data air_quality_data today)
  = Ok timeline_results ->
  List.length timeline_results = List.length (daily_sunset weather_data)
  /\ forall (day_idx : nat) (sunset_time : datetime),
       nth_error (daily_sunset weather_data) day_idx = Some sunset_time ->
       exists r : timeline_result,
         nth_error timeline_results day_idx = Some r
         /\ result_sunset_time r = sunset_time
         /\ result_date r = date_of sunset_time
         /\ read_at weather_data air_quality_data
              (sunset_index (hourly_time weather_data) day_idx sunset_time)
              (result_factors r)
         /\ result (score_of_factors (result_factors r))
            = Ok (result_score r)
         /\ 0 <= result_score r <= 100.
Proof.
  intros H. unfold calculate_sunset_scores in H.
  destruct (timeline_loop_ok_inv _ _ _ _ _ _ H) as [Hlen Hnth].
  split; [exact Hlen |].
  intros day_idx sunset_time Hs.
  destruct (Hnth day_idx sunset_time Hs) as (r & Hr & Hentry).
  simpl in Hentry.
  destruct (timeline_entry_ok_inv _ _ _ _ _ _ Hentry)
    as (Htime & Hdate & _ & Hread & Hscore).
  exists r. repeat split; try assumption;
    apply (score_of_factors_range _ _ Hscore).
Qed.

(** X21: the clock only labels the results.  Running
    [calculate_sunset_scores] with another value of
    [datetime.now().date()] gives the same outcome and the same results,
    except that each ['data_type'] is the one for the new date. *)
Theorem calculate_sunset_scores_clock
  (weather_data : weather_response)
  (air_quality_data : air_quality_response) (today today' : date) :
  calculate_sunset_scores weather_data air_quality_data today'
  = (timeline_results <-
       calculate_sunset_scores weather_data air_quality_data today ;;
     ret (map (retag today') timeline_results)).
Proof. apply timeline_loop_retag. Qed.

(** X22: [calculate_sunset_scores] never raises [ZeroDivisionError],
    whatever the two responses hold: every divisor of the scorer is
    non-zero, and the reads raise [IndexError] only. *)
Theorem calculate_sunset_scores_no_zero_division
  (weather_data : weather_response)
  (air_quality_data : air_quality_response) (today : date) :
  result (calculate_sunset_scores weather_data air_quality_data today)
  <> Raise ZeroDivisionError.
Proof. apply timeline_loop_not_zero_division. Qed.

(** ** Reading outside the series *)

Lemma getitem_ok_bounds {A : Type} (l : list A) (i : Z) (a : A) :
  result (getitem l i) = Ok a ->
  (- Z.of_nat (List.length l) <= i < Z.of_nat (List.length l))%Z.
Proof.
  unfold getitem, result. cbv zeta. cbn [snd].
  set (n := Z.of_nat (List.length l)).
  destruct (Z.ltb_spec i 0) as [Hneg | Hpos].
  - destruct (Z.leb_spec 0 (i + n)); destruct (Z.ltb_spec (i + n) n);
      cbn [andb]; try discriminate. intros _. lia.
  - destruct (Z.leb_spec 0 i); destruct (Z.ltb_spec i n);
      cbn [andb]; try discriminate. intros _. lia.
Qed.

Lemma reading_ok_bounds (series : list (option R)) (i : Z) (v : R) :
  result (reading series i) = Ok v ->
  (- Z.of_nat (List.length series) <= i < Z.of_nat (List.length series))%Z.
Proof.
  intros H. unfold reading in H.
  apply result_bind_ok_inv in H. destruct H as (x & Hx & _).
  exact (getitem_ok_bounds _ _ _ Hx).
Qed.

Lemma Forall2_In_left {A B : Type} (P : A -> B -> Prop)
  (l : list A) (l' : list B) (a : A) :
  Forall2 P l l' -> In a l -> exists b : B, P a b.
Proof.
  induction 1 as [| x y l l' Hxy _ IH]; intros Hin; [contradiction |].
  destruct Hin as [<- | Hin]; [exists y; exact Hxy | exact (IH Hin)].
Qed.

(** X24: a series that stops before a day begins is detected.  When every
    series entry is null or in its domain and some day [day_idx] of the
    daily sunsets has an hourly timestamp but one of the ten series has at
    most [24 * day_idx] entries, [calculate_sunset_scores] raises
    [IndexError] instead of returning results. *)
Theorem calculate_sunset_scores_short_series
  (weather_data : weather_response)
  (air_quality_data : air_quality_response) (today : date)
  (day_idx : nat) (series : list (option R)) :
  series_in_domain weather_data air_quality_data ->
  (day_idx < List.length (daily_sunset weather_data))%nat ->
  (24 * day_idx < List.length (hourly_time weather_data))%nat ->
  In series (all_series weather_data air_quality_data) ->
  (List.length series <= 24 * day_idx)%nat ->
  result (calculate_sunset_scores weather_data air_quality_data today)
  = Raise IndexError.
Proof.
  intros Hdomain Hday Htime Hin Hshort.
  destruct (result (calculate_sunset_scores weather_data air_quality_data
                      today)) as [rs | e] eqn:Hres.
  - exfalso. unfold calculate_sunset_scores in Hres.
    destruct (timeline_loop_ok_inv _ _ _ _ _ _ Hres) as [_ Hnth].
    destruct (nth_error (daily_sunset weather_data) day_idx) as [s |] eqn:Hs;
      [| apply nth_error_None in Hs; lia].
    destruct (Hnth day_idx s Hs) as (r & _ & Hentry). simpl in Hentry.
    destruct (timeline_entry_ok_inv _ _ _ _ _ _ Hentry)
      as (_ & _ & _ & Hread & _).
    destruct (Forall2_In_left _ _ _ _ Hread Hin) as [v Hv].
    apply reading_ok_bounds in Hv.
    assert (Hne : slice (hourly_time weather_data) (day_idx * 24)
                    (day_idx * 24 + 24) <> []).
    { intros Hnil. apply (f_equal (@List.length datetime)) in Hnil.
      unfold slice in Hnil.
      rewrite length_firstn, length_skipn in Hnil. simpl in Hnil. lia. }
    pose proof (align_bounds (Z.of_nat (day_idx * 24)) _ s Hne) as Hb.
    unfold sunset_index in Hv. lia.
  - f_equal.
    exact (timeline_loop_raises_index_error _ _ _ _ _ Hdomain _ Hres).
Qed.

Lemma getitem_minus_one {A : Type} (l : list A) (x : A) :
  result (getitem (l ++ [x]) (-1)) = Ok x.
Proof.
  unfold getitem, result. cbv zeta. cbn [snd].
  assert (Hn : Z.of_nat (List.length (l ++ [x]))
               = (Z.of_nat (List.length l) + 1)%Z).
  { rewrite length_app. simpl. lia. }
  rewrite Hn. change (-1 <? 0)%Z with true. cbv iota.
  replace (-1 + (Z.of_nat (List.length l) + 1))%Z
    with (Z.of_nat (List.length l)) by lia.
  replace (0 <=? Z.of_nat (List.length l))%Z with true
    by (symmetry; apply Z.leb_le; lia).
  replace (Z.of_nat (List.length l) <? Z.of_nat (List.length l) + 1)%Z
    with true by (symmetry; apply Z.ltb_lt; lia).
  cbn [andb]. rewrite Nat2Z.id, nth_error_app2 by lia.
  rewrite Nat.sub_diag. reflexivity.
Qed.

(** X25: without hourly timestamps the reads of day 0 use index -1, which
    Python counts from the end: each read returns the last entry of its
    series (null read as 0) instead of failing. *)
Theorem reading_without_timestamps
  (sunset_time : datetime) (series : list (option R)) (x : option R) :
  sunset_index [] 0 sunset_time = (-1)%Z
  /\ result (reading (series ++ [x]) (sunset_index [] 0 sunset_time))
     = Ok (or_0 x).
Proof.
  split; [reflexivity |].
  change (sunset_index [] 0 sunset_time) with (-1)%Z.
  unfold reading. rewrite result_bind, getitem_minus_one. reflexivity.
Qed.

(** X26: inside a series a read returns the number stored at the index,
    and 0 where the entry is null. *)
Theorem reading_number_or_null (series : list (option R)) (i : nat) :
  (i < List.length series)%nat ->
  result (reading series (Z.of_nat i))
  = Ok match nth_error series i with
       | Some (Some v) => v
       | _ => 0
       end.
Proof.
  intros Hi.
  destruct (reading_in_range series (Z.of_nat i)) as (x & Hx & ->); [lia |].
  rewrite Nat2Z.id in Hx. rewrite Hx. f_equal.
  destruct x as [v |]; [| reflexivity].
  unfold or_0. destruct (Req_dec_T v 0) as [-> | _]; reflexivity.
Qed.

(** ** Instances of the further properties *)

Lemma huge_bounds : / huge <= 1 /\ 1 <= huge.
Proof.
  pose proof huge_ge as H.
  split; [| lra].
  rewrite <- Rinv_1. apply Rinv_le_contravar; lra.
Qed.

Lemma gaussian_score_unit_interval_witness :
  exists g : R,
    result (gaussian_score 5 20) = Ok g
    /\ 0 <= g <= 1 /\ (5 = 0 -> g = 1).
Proof.
  pose proof huge_ge as Hhuge. pose proof huge_bounds as [Hinv _].
  apply (gaussian_score_unit_interval 5 20);
    rewrite Rabs_pos_eq by lra; lra.
Defined.

Lemma gaussian_score_zero_sigma_witness :
  result (gaussian_score 5 0) = Raise ZeroDivisionError.
Proof.
  pose proof huge_ge as Hhuge.
  apply (proj1 (gaussian_score_zero_sigma 5 0)); [| reflexivity].
  rewrite Rabs_pos_eq by lra. lra.
Defined.

Lemma gaussian_score_decreasing_witness :
  exists g1 g2 : R,
    result (gaussian_score 1 20) = Ok g1
    /\ result (gaussian_score 2 20) = Ok g2
    /\ g2 <= g1.
Proof.
  pose proof huge_ge as Hhuge. pose proof huge_bounds as [Hinv _].
  apply (gaussian_score_decreasing 1 2 20);
    rewrite ?Rabs_pos_eq by lra; lra.
Defined.




Lemma size_score_cases_witness :
  result (size_score 18 45) = Ok 100.
Proof.
  destruct (size_score_cases 18 45) as (s & Hs & _ & _ & H100 & _).
  rewrite Hs. f_equal. apply H100; lra.
Defined.

Lemma visibility_score_saturates_witness :
  0 <= 15000 /\ result (visibility_score 15000) = Ok 100.
Proof.
  assert (Hv : 0 <= 15000) by lra.
  split; [exact Hv |].
  destruct (visibility_score_saturates 15000 Hv) as (s & Hs & _ & H100).
  rewrite Hs. f_equal. apply H100. lra.
Defined.

Lemma aod_score_peak_witness :
  result (aod_score 0.01) = Ok 30.
Proof.
  pose proof huge_ge as Hhuge.
  destruct (aod_score_peak 0.01) as (s & Hs & _ & Hlow & _).
  { apply Rabs_le. lra. }
  rewrite Hs. f_equal. apply Hlow. lra.
Defined.

Lemma score_sunset_overflow_witness :
  result (score_sunset 50 10 30 40 65 15000 (10 ^ 155) 45 0.35)
  = Raise OverflowError.
Proof.
  apply (score_sunset_overflow 50 10 30 40 65 15000 (10 ^ 155) 45 0.35).
  left. apply Rle_refl.
Defined.

Lemma rating_index_error_iff_witness :
  result (rating 120) = Raise IndexError
  /\ exists label : string,
       result (rating 85) = Ok label /\ In label ratings.
Proof.
  split.
  - apply (proj1 (rating_index_error_iff 120)). right. lra.
  - apply (proj2 (rating_index_error_iff 85)). lra.
Defined.

Lemma rating_bucket_witness :
  result (rating 85) = Ok "Amazing"%string.
Proof.
  apply (rating_bucket 85 4); [lia | simpl; lra].
Defined.

Lemma rating_negative_wraps_witness :
  result (rating (-5)) = Ok "Amazing"%string.
Proof.
  apply (proj2 (rating_negative_wraps (-5) ltac:(lra))). lra.
Defined.

Lemma weather_sunset_index_first_match_witness :
  Weather.sunset_index sample_day (sample_sunset 18 5)
  = Weather.StopIteration.
Proof.
  apply (proj2 (weather_sunset_index_first_match sample_day
                  (sample_sunset 18 5))).
  repeat constructor; discriminate.
Defined.

Lemma timeline_extends_weather_witness :
  sunset_index sample_day 0 (sample_sunset 1 47) = 1%Z
  /\ sunset_index sample_day 0 (sample_sunset 18 5) = 2%Z.
Proof.
  assert (Hne : sample_day <> []) by discriminate.
  assert (Hlen : (List.length sample_day <= 24)%nat) by (simpl; lia).
  split.
  - exact (timeline_extends_weather sample_day (sample_sunset 1 47)
             Hne Hlen).
  - exact (timeline_extends_weather sample_day (sample_sunset 18 5)
             Hne Hlen).
Defined.

Lemma sunset_index_empty_day_witness :
  sunset_index sample_day 1 (sample_sunset 1 47) = 23%Z.
Proof.
  apply (sunset_index_empty_day sample_day 1 (sample_sunset 1 47)).
  simpl. lia.
Defined.

Lemma sunset_index_selects_sunset_hour_witness :
  (0 <= sunset_index sample_day 0 (sample_sunset 1 47) < 3)%Z.
Proof.
  assert (Hlen : (24 * 0 < List.length sample_day)%nat) by (simpl; lia).
  exact (proj1 (sunset_index_selects_sunset_hour sample_day 0
                  (sample_sunset 1 47) Hlen)).
Defined.

Lemma sample_series_cover_times :
  series_cover_times sample_weather sample_air_quality.
Proof.
  unfold series_cover_times, all_series. repeat constructor; simpl; lia.
Qed.

Lemma or_0_some (v : R) : or_0 (Some v) = v.
Proof. unfold or_0. destruct (Req_dec_T v 0) as [-> | _]; reflexivity. Qed.

Lemma sample_series_in_domain :
  series_in_domain sample_weather sample_air_quality.
Proof.
  pose proof huge_ge as Hhuge.
  unfold series_in_domain.
  split; repeat (apply Forall_cons || apply Forall_nil);
    rewrite ?or_0_some; try (change (or_0 None) with 0);
    unfold percent; lra.
Qed.

Lemma empty_series_in_domain :
  series_in_domain sample_weather empty_air_quality.
Proof.
  unfold series_in_domain.
  split; repeat (apply Forall_cons || apply Forall_nil);
    rewrite ?or_0_some; try (change (or_0 None) with 0);
    unfold percent; lra.
Qed.

Lemma sample_days_have_timestamps :
  forall day_idx : nat,
    (day_idx < List.length (daily_sunset sample_weather))%nat ->
    (24 * day_idx < List.length (hourly_time sample_weather))%nat.
Proof. intros day_idx H. simpl in *. lia. Qed.

Lemma sample_timeline_returns :
  exists timeline_results : list timeline_result,
    result (calculate_sunset_scores sample_weather sample_air_quality
              sample_today) = Ok timeline_results.
Proof.
  apply timeline_loop_ok;
    [exact sample_series_cover_times | exact sample_series_in_domain |].
  intros k Hk. simpl in *. lia.
Qed.

Lemma calculate_sunset_scores_returns_witness :
  exists timeline_results : list timeline_result,
    result (calculate_sunset_scores sample_weather sample_air_quality
              sample_today) = Ok timeline_results
    /\ List.length timeline_results = 1%nat.
Proof.
  exact (calculate_sunset_scores_returns sample_weather sample_air_quality
           sample_today sample_series_cover_times sample_series_in_domain
           sample_days_have_timestamps).
Defined.

Lemma calculate_sunset_scores_results_witness :
  exists timeline_results : list timeline_result,
    result (calculate_sunset_scores sample_weather sample_air_quality
              sample_today) = Ok timeline_results
    /\ List.length timeline_results = 1%nat.
Proof.
  destruct sample_timeline_returns as [rs Hrs].
  exists rs. split; [exact Hrs |].
  exact (proj1 (calculate_sunset_scores_results sample_weather
                  sample_air_quality sample_today rs Hrs)).
Defined.

Lemma calculate_sunset_scores_short_series_witness :
  result (calculate_sunset_scores sample_weather empty_air_quality
            sample_today) = Raise IndexError.
Proof.
  apply (calculate_sunset_scores_short_series sample_weather
           empty_air_quality sample_today 0 []).
  - exact empty_series_in_domain.
  - simpl. lia.
  - simpl. lia.
  - simpl. tauto.
  - simpl. lia.
Defined.

Lemma reading_number_or_null_witness :
  result (reading (hourly_cloud_cover sample_weather) 1) = Ok 0.
Proof.
  apply (reading_number_or_null (hourly_cloud_cover sample_weather) 1).
  simpl. lia.
Defined.
